(** * 3d-map: the zoom-gated, debounced place-label refresh of
      [src/app/Components/CesiumComponent.tsx]

    The component owns two React refs ([cesiumViewer], [cesiumContainerRef]),
    talks to the Cesium engine through the [CesiumJs] prop, to the network
    through [fetch], and to lodash's [debounce] for scheduling.  The
    embedding keeps that shape:

    - a finite JavaScript number is the rational it denotes ([Q]).  The
      zoom level is the one place where the rounding of the arithmetic
      decides what the component does; there the rounded operations and
      [Math.log2] are read from an interface of the runtime ([Float64]);
    - the engine is an interface ([CesiumType]); whatever a promise of the
      engine or of the network settles to is read from an [Environment];
    - the refs, the console, the requests sent and the debounce timer make
      up a [World], and every callback of the component is a function on it.
      A refresh is taken in one step.  [initializeCesium] is given both
      run to its end and in its two halves, before and after the tileset
      load it awaits, so that other events can fall in between. *)

From Stdlib Require Import ZArith QArith Qround Reals Qreals.
From Stdlib Require Import String List Bool Arith Lia Lra.
Import ListNotations.

Open Scope nat_scope.

(* ================================================================= *)
(** ** Zoom level: [Math.floor(19 - Math.log2(height / 1000))] *)

(** A JavaScript number: a finite double, given by the rational it denotes,
    or one of [NaN], [Infinity], [-Infinity].  The sign of zero is not
    kept; no operation used here tells the two zeros apart. *)
Inductive Number : Set :=
| NaN
| Infinity
| NegInfinity
| Num (q : Q).

(** The arithmetic of the runtime that the zoom level goes through: the
    division and the subtraction of doubles, which round, and [Math.log2],
    whose accuracy the language leaves to the implementation. *)
Class Float64 : Type :=
  { Number_div : Number -> Number -> Number;
    Number_sub : Number -> Number -> Number;
    Math_log2 : Number -> Number }.

(** What [Math.floor] returns: [NaN], an infinity, or an integer. *)
Inductive ZoomLevel : Set :=
| ZoomNaN
| ZoomInfinity
| ZoomNegInfinity
| Zoom (level : Z).

(** [Math.floor] is exact. *)
Definition Math_floor (x : Number) : ZoomLevel :=
  match x with
  | NaN => ZoomNaN
  | Infinity => ZoomInfinity
  | NegInfinity => ZoomNegInfinity
  | Num q => Zoom (Qfloor q)
  end.

Definition zoomLevel `{Float64} (height : Q) : ZoomLevel :=
  Math_floor
    (Number_sub (Num 19) (Math_log2 (Number_div (Num height) (Num 1000)))).

(** [zoomLevel > 15]; a comparison with [NaN] is false. *)
Definition above15 (z : ZoomLevel) : bool :=
  match z with
  | ZoomNaN => false
  | ZoomInfinity => true
  | ZoomNegInfinity => false
  | Zoom level => (15 <? level)%Z
  end.

(** *** The same in exact arithmetic *)

(** The logarithm to base 2 rounded up to an integer, computed exactly on
    a positive rational [p/q]: the least [m] with [p/q <= 2^m].  For
    [p <= q] that is minus the number of times [p] can be doubled and stay
    below [q]. *)
Definition log2_ceil (x : Q) : Z :=
  let p := Qnum x in
  let q := Zpos (Qden x) in
  if (p <=? q)%Z then (- Z.log2 (q / p))%Z
  else Z.log2_up ((p + q - 1) / q).

(** The expression of the source read over the reals. *)
Definition log2R (x : R) : R := (ln x / ln 2)%R.

Definition zoomLevelR (height : R) : Z :=
  Int_part (19 - log2R (height / 1000)).

(* ================================================================= *)
(** ** The engine interface ([CesiumType]) *)

Record Cartographic : Set :=
  { longitude : Q; latitude : Q; height : Q }.

(** A view rectangle, in radians. *)
Record Rectangle : Set :=
  { west : Q; south : Q; east : Q; north : Q }.

Class CesiumType : Type :=
  { Cartesian3 : Type;
    Cesium3DTileset : Type;
    Cartesian3_fromDegrees : Q -> Q -> Cartesian3;
    Cartesian3_fromRadians : Q -> Q -> Q -> Cartesian3;
    Cartographic_fromCartesian : Cartesian3 -> Cartographic;
    (** [scene.globe.ellipsoid.cartesianToCartographic] *)
    cartesianToCartographic : Cartesian3 -> Cartographic;
    Math_toDegrees : Q -> Q;
    Math_toRadians : Q -> Q }.

Inductive Color : Set :=
  GREENYELLOW | GREEN | WHITESMOKE | ORANGERED | BLACK.

Inductive LabelStyle : Set := FILL | OUTLINE | FILL_AND_OUTLINE.
Inductive HorizontalOrigin : Set := H_CENTER | H_LEFT | H_RIGHT.
Inductive VerticalOrigin : Set := V_CENTER | V_BOTTOM | V_BASELINE | V_TOP.
Inductive ArcType : Set := NONE | GEODESIC | RHUMB.

(** [new DistanceDisplayCondition(near, far)]: shown when the distance to
    the camera lies in the interval. *)
Record DistanceDisplayCondition : Set :=
  { near : Q; far : Q }.

(** A distance that may be [Number.POSITIVE_INFINITY]. *)
Inductive Distance : Set :=
| Meters (d : Q)
| POSITIVE_INFINITY.

Module Label.
Record t : Set :=
  { text : string;
    font : string;
    style : LabelStyle;
    outlineWidth : Q;
    fillColor : Color;
    outlineColor : Color;
    horizontalOrigin : HorizontalOrigin;
    verticalOrigin : VerticalOrigin;
    pixelOffset : Q * Q;
    distanceDisplayCondition : DistanceDisplayCondition;
    disableDepthTestDistance : Distance }.
End Label.

Module Point.
Record t : Set :=
  { pixelSize : Q;
    color : Color;
    outlineColor : Color;
    outlineWidth : Q;
    distanceDisplayCondition : DistanceDisplayCondition;
    disableDepthTestDistance : Distance }.
End Point.

Module Polyline.
Record t `{CesiumType} : Type :=
  { positions : list Cartesian3;
    width : Q;
    arcType : ArcType;
    material : Color;
    distanceDisplayCondition : DistanceDisplayCondition }.
End Polyline.

(** What [entities.add] receives.  An entity has one [position]; the engine
    draws its label and its point there.  The polyline carries its own
    positions. *)
Record Entity `{CesiumType} : Type :=
  { position : Cartesian3;
    label : Label.t;
    point : Point.t;
    polyline : Polyline.t }.

(** Where the engine draws the point glyph of an entity. *)
Definition pointPosition `{CesiumType} (e : Entity) : Cartesian3 :=
  position e.

(** Where the engine draws the text of an entity. *)
Definition labelAnchor `{CesiumType} (e : Entity) : Cartesian3 :=
  position e.

(* ================================================================= *)
(** ** Places, requests and promises *)

(** A GeoJSON feature of the places service:
    [geometry.coordinates = [longitude, latitude]] and
    [properties.names.primary]. *)
Record PlaceFeature : Set :=
  { coordinates : Q * Q;
    names_primary : string }.

Record BoundingBox : Set :=
  { bbox_west : Q; bbox_south : Q; bbox_east : Q; bbox_north : Q }.

(** The query string of [apiUrl]; host and path are fixed. *)
Record Url : Set :=
  { bbox : BoundingBox;
    output_format : string;
    type_ : string;
    limit : Z }.

(** How an awaited promise settles. *)
Inductive Settled (A : Type) : Type :=
| Fulfilled (value : A)
| Rejected (error : string).
Arguments Fulfilled {A} value.
Arguments Rejected {A} error.

Record FeatureCollection : Set :=
  { features : list PlaceFeature }.

(** A [Response]: all the component does with it is [await response.json()]. *)
Record Response : Set :=
  { json : Settled FeatureCollection }.

Record Camera `{CesiumType} : Type :=
  { camera_position : Cartesian3;
    (** [camera.computeViewRectangle()], [None] for [undefined] *)
    computeViewRectangle : option Rectangle }.

(** Everything outside the component that it awaits or reads. *)
Record Environment `{CesiumType} : Type :=
  { NEXT_PUBLIC_CESIUM_TOKEN : option string;
    (** the camera of a viewer that was just constructed *)
    homeCamera : Camera;
    (** [Cesium3DTileset.fromIonAssetId(id, _)] *)
    fromIonAssetId : Z -> Settled Cesium3DTileset;
    (** [scene.clampToHeightMostDetailed]: a position that cannot be
        clamped comes back [undefined] *)
    clampToHeightMostDetailed :
      list Cartesian3 -> Settled (list (option Cartesian3));
    fetch : Url -> Settled Response }.

(* ================================================================= *)
(** ** The viewer and the component's state *)

(** The widgets switched off in [new CesiumJs.Viewer(container, {...})]. *)
Record ViewerOptions : Set :=
  { baseLayerPicker : bool;
    geocoder : bool;
    homeButton : bool;
    sceneModePicker : bool;
    navigationHelpButton : bool;
    animation : bool;
    timeline : bool;
    fullscreenButton : bool;
    infoBox : bool;
    selectionIndicator : bool }.

(** A callback registered on [camera.moveEnd]; the component registers
    only one. *)
Inductive Listener : Set := DebouncedUpdatePlaces.

Record Viewer `{CesiumType} : Type :=
  { options : ViewerOptions;
    resolutionScale : Q;
    globe_show : bool;
    primitives : list Cesium3DTileset;
    camera : Camera;
    moveEnd : list Listener;
    entities : list Entity }.

(** The refs of the component and what it has done to the outside.
    [clock] is the time in ms; [timerId] holds the time at which the
    debounced function is due, when a call is pending; [invoked] lists the
    times at which the timer ran [updatePlaces]; [constructed] counts the
    [new CesiumJs.Viewer] calls. *)
Record World `{CesiumType} : Type :=
  { cesiumContainerRef : bool;
    cesiumViewer : option Viewer;
    Ion_defaultAccessToken : option string;
    constructed : nat;
    console : list string;
    requests : list Url;
    clock : nat;
    timerId : option nat;
    invoked : list nat }.

Section Component.
Context `{CesiumJs : CesiumType} `{Runtime : Float64}.
Variable env : Environment.

(** *** Record updates *)

Definition setViewer (v : option Viewer) (w : World) : World :=
  {| cesiumContainerRef := cesiumContainerRef w;
     cesiumViewer := v;
     Ion_defaultAccessToken := Ion_defaultAccessToken w;
     constructed := constructed w;
     console := console w;
     requests := requests w;
     clock := clock w;
     timerId := timerId w;
     invoked := invoked w |}.

Definition setTimer (clk : nat) (tm : option nat) (inv : list nat)
    (w : World) : World :=
  {| cesiumContainerRef := cesiumContainerRef w;
     cesiumViewer := cesiumViewer w;
     Ion_defaultAccessToken := Ion_defaultAccessToken w;
     constructed := constructed w;
     console := console w;
     requests := requests w;
     clock := clk;
     timerId := tm;
     invoked := inv |}.

(** [console.error(message, error)] *)
Definition console_error (message error : string) (w : World) : World :=
  {| cesiumContainerRef := cesiumContainerRef w;
     cesiumViewer := cesiumViewer w;
     Ion_defaultAccessToken := Ion_defaultAccessToken w;
     constructed := constructed w;
     console := console w ++ [(message ++ " " ++ error)%string];
     requests := requests w;
     clock := clock w;
     timerId := timerId w;
     invoked := invoked w |}.

(** The request [fetch(apiUrl)] leaves the browser. *)
Definition send (apiUrl : Url) (w : World) : World :=
  {| cesiumContainerRef := cesiumContainerRef w;
     cesiumViewer := cesiumViewer w;
     Ion_defaultAccessToken := Ion_defaultAccessToken w;
     constructed := constructed w;
     console := console w;
     requests := requests w ++ [apiUrl];
     clock := clock w;
     timerId := timerId w;
     invoked := invoked w |}.

Definition setEntities (es : list Entity) (v : Viewer) : Viewer :=
  {| options := options v;
     resolutionScale := resolutionScale v;
     globe_show := globe_show v;
     primitives := primitives v;
     camera := camera v;
     moveEnd := moveEnd v;
     entities := es |}.

Definition setCamera (c : Camera) (v : Viewer) : Viewer :=
  {| options := options v;
     resolutionScale := resolutionScale v;
     globe_show := globe_show v;
     primitives := primitives v;
     camera := c;
     moveEnd := moveEnd v;
     entities := entities v |}.

(** [entities.removeAll()] *)
Definition entities_removeAll (v : Viewer) : Viewer := setEntities [] v.

(** [entities.add(e)] *)
Definition entities_add (e : Entity) (v : Viewer) : Viewer :=
  setEntities (entities v ++ [e]) v.

(** [scene.primitives.add(tileset)] *)
Definition primitives_add (t : Cesium3DTileset) (v : Viewer) : Viewer :=
  {| options := options v;
     resolutionScale := resolutionScale v;
     globe_show := globe_show v;
     primitives := primitives v ++ [t];
     camera := camera v;
     moveEnd := moveEnd v;
     entities := entities v |}.

(** [camera.moveEnd.addEventListener(l)] *)
Definition addEventListener (l : Listener) (v : Viewer) : Viewer :=
  {| options := options v;
     resolutionScale := resolutionScale v;
     globe_show := globe_show v;
     primitives := primitives v;
     camera := camera v;
     moveEnd := moveEnd v ++ [l];
     entities := entities v |}.

(** The markers in the scene; without a viewer there is no scene. *)
Definition markers (w : World) : list Entity :=
  match cesiumViewer w with
  | Some v => entities v
  | None => []
  end.

(** *** [getCurrentBoundingBox] *)

Definition getCurrentBoundingBox (w : World) : option BoundingBox :=
  match cesiumViewer w with
  | Some v =>
      match computeViewRectangle (camera v) with
      | Some rectangle =>
          Some {| bbox_west := Math_toDegrees (west rectangle);
                  bbox_south := Math_toDegrees (south rectangle);
                  bbox_east := Math_toDegrees (east rectangle);
                  bbox_north := Math_toDegrees (north rectangle) |}
      | None => None
      end
  | None => None
  end.

(** *** [isZoomAbove15] *)

Definition cameraHeight (v : Viewer) : Q :=
  height (cartesianToCartographic (camera_position (camera v))).

Definition isZoomAbove15 (w : World) : bool :=
  match cesiumViewer w with
  | Some v => above15 (zoomLevel (cameraHeight v))
  | None => false
  end.

(** *** [fetchOverturePlaces] *)

Definition apiUrl (b : BoundingBox) : Url :=
  {| bbox := b;
     output_format := "geojson";
     type_ := "place";
     limit := 100 |}.

Definition fetchOverturePlaces (w : World) : World * list PlaceFeature :=
  if negb (isZoomAbove15 w) then (w, [])
  else
    match getCurrentBoundingBox w with
    | None => (w, [])
    | Some b =>
        let w1 := send (apiUrl b) w in
        match fetch env (apiUrl b) with
        | Fulfilled response =>
            match json response with
            | Fulfilled data => (w1, features data)
            | Rejected error =>
                (console_error "Error fetching Overture Maps data:"
                   error w1, [])
            end
        | Rejected error =>
            (console_error "Error fetching Overture Maps data:" error w1,
             [])
        end
    end.


(** *** [addPlaceLabels] *)

Definition heightOffset : Q := 20.

Definition labelPosition (place : PlaceFeature) (clampedPosition : Cartesian3)
    : Cartesian3 :=
  let '(longitude, latitude) := coordinates place in
  Cartesian3_fromRadians
    (Math_toRadians longitude)
    (Math_toRadians latitude)
    (height (Cartographic_fromCartesian clampedPosition) + heightOffset).

(** The object literal handed to [entities.add] for one place. *)
Definition placeEntity (place : PlaceFeature) (clampedPosition : Cartesian3)
    : Entity :=
  {| position := labelPosition place clampedPosition;
     label :=
       {| Label.text := names_primary place;
          Label.font := "7px sans-serif";
          Label.style := FILL_AND_OUTLINE;
          Label.outlineWidth := 1;
          Label.fillColor := GREENYELLOW;
          Label.outlineColor := GREEN;
          Label.horizontalOrigin := H_CENTER;
          Label.verticalOrigin := V_TOP;
          Label.pixelOffset := (0, -10)%Q;
          Label.distanceDisplayCondition := {| near := 0; far := 6000 |};
          Label.disableDepthTestDistance := POSITIVE_INFINITY |};
     point :=
       {| Point.pixelSize := 6;
          Point.color := WHITESMOKE;
          Point.outlineColor := ORANGERED;
          Point.outlineWidth := 2;
          Point.distanceDisplayCondition := {| near := 0; far := 6000 |};
          Point.disableDepthTestDistance := POSITIVE_INFINITY |};
     polyline :=
       {| Polyline.positions :=
            [clampedPosition; labelPosition place clampedPosition];
          Polyline.width := (1 # 5)%Q;
          Polyline.arcType := NONE;
          Polyline.material := BLACK;
          Polyline.distanceDisplayCondition := {| near := 0; far := 1000 |} |}
  |}.

(** [places.forEach((place, index) => ...)] inside the [try]: the entities
    collection after the loop, and the error that stopped it, if any.
    [clampedCartesians[index]] is [undefined] past the end of the array or
    where the engine returned [undefined]; [Cartographic.fromCartesian]
    then throws, and what was added before stays. *)
Fixpoint forEachPlace (places : list PlaceFeature) (index : nat)
    (clampedCartesians : list (option Cartesian3)) (v : Viewer)
    : Viewer * option string :=
  match places with
  | [] => (v, None)
  | place :: rest =>
      match nth_error clampedCartesians index with
      | Some (Some clampedPosition) =>
          forEachPlace rest (S index) clampedCartesians
            (entities_add (placeEntity place clampedPosition) v)
      | _ => (v, Some "TypeError"%string)
      end
  end.

Definition placeCartesian (place : PlaceFeature) : Cartesian3 :=
  let '(longitude, latitude) := coordinates place in
  Cartesian3_fromDegrees longitude latitude.

Definition addPlaceLabels (places : list PlaceFeature) (w : World) : World :=
  match cesiumViewer w with
  | Some v =>
      let v1 := entities_removeAll v in
      let cartesians := map placeCartesian places in
      match clampToHeightMostDetailed env cartesians with
      | Fulfilled clampedCartesians =>
          match forEachPlace places 0 clampedCartesians v1 with
          | (v2, None) => setViewer (Some v2) w
          | (v2, Some error) =>
              console_error "Error clamping positions to height:" error
                (setViewer (Some v2) w)
          end
      | Rejected error =>
          console_error "Error clamping positions to height:" error
            (setViewer (Some v1) w)
      end
  | None => w
  end.

(** *** [updatePlaces] *)

Definition updatePlaces (w : World) : World :=
  if isZoomAbove15 w then
    let '(w1, places) := fetchOverturePlaces w in
    addPlaceLabels places w1
  else
    match cesiumViewer w with
    | Some v => setViewer (Some (entities_removeAll v)) w
    | None => w
    end.

(** *** [debouncedUpdatePlaces = debounce(updatePlaces, 300)] *)

Definition wait : nat := 300.

(** Modelled from the spec: lodash's [debounce] is not among the sources.
    The spec describes it as a timer that is scheduled, replaced and
    cancelled: a call (re)schedules the one pending execution [wait] ms
    after the call, so that only the trailing call of a burst runs. *)
Definition debouncedUpdatePlaces (w : World) : World :=
  setTimer (clock w) (Some (clock w + wait)) (invoked w) w.

(** Modelled from the spec: [debouncedUpdatePlaces.cancel()] of lodash drops
    the pending execution. *)
Definition debouncedUpdatePlaces_cancel (w : World) : World :=
  setTimer (clock w) None (invoked w) w.

(** Modelled from the spec: the timer of lodash's [debounce] expires at
    time [due] and runs [updatePlaces] once. *)
Definition expire (due : nat) (w : World) : World :=
  updatePlaces (setTimer due None (invoked w ++ [due]) w).

(** Modelled from the spec: [dt] ms go by without an event.  A pending
    execution that falls due in that time runs, at the time it is due. *)
Definition elapse (dt : nat) (w : World) : World :=
  let t := clock w + dt in
  match timerId w with
  | Some due =>
      if due <=? t then
        let w1 := expire (Nat.max due (clock w)) w in
        setTimer t (timerId w1) (invoked w1) w1
      else setTimer t (timerId w) (invoked w) w
  | None => setTimer t (timerId w) (invoked w) w
  end.

(** *** [add3DTiles] and [initializeCesium] *)

Definition add3DTiles (w : World) : World :=
  match cesiumViewer w with
  | Some v =>
      match fromIonAssetId env 2275207 with
      | Fulfilled tileset => setViewer (Some (primitives_add tileset v)) w
      | Rejected error => console_error "Error loading 3D Tiles:" error w
      end
  | None => w
  end.

Definition viewerOptions : ViewerOptions :=
  {| baseLayerPicker := false;
     geocoder := false;
     homeButton := false;
     sceneModePicker := false;
     navigationHelpButton := false;
     animation := false;
     timeline := false;
     fullscreenButton := false;
     infoBox := false;
     selectionIndicator := false |}.

(** [new CesiumJs.Viewer(container, opts)]: the engine's defaults, no
    primitives, no listeners, no entities. *)
Definition newViewer (opts : ViewerOptions) : Viewer :=
  {| options := opts;
     resolutionScale := 1;
     globe_show := true;
     primitives := [];
     camera := homeCamera env;
     moveEnd := [];
     entities := [] |}.

Definition setResolutionScale (s : Q) (v : Viewer) : Viewer :=
  {| options := options v;
     resolutionScale := s;
     globe_show := globe_show v;
     primitives := primitives v;
     camera := camera v;
     moveEnd := moveEnd v;
     entities := entities v |}.

Definition setGlobeShow (b : bool) (v : Viewer) : Viewer :=
  {| options := options v;
     resolutionScale := resolutionScale v;
     globe_show := b;
     primitives := primitives v;
     camera := camera v;
     moveEnd := moveEnd v;
     entities := entities v |}.

(** An assignment through [cesiumViewer.current]. *)
Definition onViewer (f : Viewer -> Viewer) (w : World) : World :=
  match cesiumViewer w with
  | Some v => setViewer (Some (f v)) w
  | None => w
  end.

Definition templateString (s : option string) : string :=
  match s with
  | Some s => s
  | None => "undefined"
  end.

Definition setToken (tok : string) (w : World) : World :=
  {| cesiumContainerRef := cesiumContainerRef w;
     cesiumViewer := cesiumViewer w;
     Ion_defaultAccessToken := Some tok;
     constructed := constructed w;
     console := console w;
     requests := requests w;
     clock := clock w;
     timerId := timerId w;
     invoked := invoked w |}.

Definition construct (v : Viewer) (w : World) : World :=
  {| cesiumContainerRef := cesiumContainerRef w;
     cesiumViewer := Some v;
     Ion_defaultAccessToken := Ion_defaultAccessToken w;
     constructed := S (constructed w);
     console := console w;
     requests := requests w;
     clock := clock w;
     timerId := timerId w;
     invoked := invoked w |}.

Definition camera_moveEnd_addEventListener (l : Listener) (w : World)
    : World :=
  match cesiumViewer w with
  | Some v => setViewer (Some (addEventListener l v)) w
  | None => w
  end.

Definition initializeCesium (w : World) : World :=
  match cesiumContainerRef w, cesiumViewer w with
  | true, None =>
      let w1 := setToken (templateString (NEXT_PUBLIC_CESIUM_TOKEN env)) w in
      let w2 := construct (newViewer viewerOptions) w1 in
      let w3 := onViewer (setResolutionScale 4) w2 in
      let w4 := onViewer (setGlobeShow false) w3 in
      let w5 := add3DTiles w4 in
      let w6 := camera_moveEnd_addEventListener DebouncedUpdatePlaces w5 in
      debouncedUpdatePlaces w6
  | _, _ => w
  end.

(** *** [initializeCesium] in its two halves *)

(** [initializeCesium] up to [await add3DTiles()]: the guard, the token,
    the viewer and the two assignments.  [add3DTiles] has started the load
    of the tileset and is suspended on it. *)
Definition initializeCesium_begin (w : World) : World :=
  match cesiumContainerRef w, cesiumViewer w with
  | true, None =>
      let w1 := setToken (templateString (NEXT_PUBLIC_CESIUM_TOKEN env)) w in
      let w2 := construct (newViewer viewerOptions) w1 in
      let w3 := onViewer (setResolutionScale 4) w2 in
      onViewer (setGlobeShow false) w3
  | _, _ => w
  end.

(** [initializeCesium] from the moment the load of the tileset settles:
    [add3DTiles] adds the tileset or logs the error, then the listener is
    registered and the debounced refresh is called. *)
Definition initializeCesium_resume (w : World) : World :=
  let w5 := add3DTiles w in
  let w6 := camera_moveEnd_addEventListener DebouncedUpdatePlaces w5 in
  debouncedUpdatePlaces w6.

(** *** The events the component reacts to *)

Inductive Event : Type :=
| MoveEnd (c : Camera)     (* the camera came to rest at [c] *)
| Elapse (dt : nat)        (* [dt] ms without an event *)
| Mount                    (* the effect runs [initializeCesium()], which
                              goes on to its [await] *)
| TilesetSettled           (* the load that a [Mount] started settles, and
                              [initializeCesium] goes on from its [await] *)
| Unmount.                 (* the effect's cleanup runs *)

Definition call (l : Listener) (w : World) : World :=
  match l with
  | DebouncedUpdatePlaces => debouncedUpdatePlaces w
  end.

(** The engine moves the camera and raises [camera.moveEnd]. *)
Definition raiseMoveEnd (c : Camera) (w : World) : World :=
  match cesiumViewer w with
  | Some v =>
      fold_left (fun w l => call l w) (moveEnd v)
        (setViewer (Some (setCamera c v)) w)
  | None => w
  end.

Definition cleanup (w : World) : World := debouncedUpdatePlaces_cancel w.

Definition step (w : World) (e : Event) : World :=
  match e with
  | MoveEnd c => raiseMoveEnd c w
  | Elapse dt => elapse dt w
  | Mount => initializeCesium_begin w
  | TilesetSettled => initializeCesium_resume w
  | Unmount => cleanup w
  end.

Definition run (es : list Event) (w : World) : World := fold_left step es w.

(** *** Bursts of camera movement *)

(** A burst: the camera comes to rest at [first], and then, for every
    [(gap, c)] of [rest], comes to rest at [c], [gap] ms after the event
    before. *)
Definition burst (first : Camera) (rest : list (nat * Camera)) : list Event :=
  MoveEnd first
    :: flat_map (fun gc => [Elapse (fst gc); MoveEnd (snd gc)]) rest.

(** The time a burst takes, from its first to its last event. *)
Definition duration (rest : list (nat * Camera)) : nat :=
  fold_right (fun gc t => fst gc + t) 0 rest.

(** The camera of the last event of a burst. *)
Definition lastCamera (first : Camera) (rest : list (nat * Camera)) : Camera :=
  last (map snd rest) first.

(** The world with the camera at [c]. *)
Definition lookFrom (c : Camera) (w : World) : World :=
  match cesiumViewer w with
  | Some v => setViewer (Some (setCamera c v)) w
  | None => w
  end.

(** The request for [url] fails with [error]: [fetch] rejects (network), or
    it answers and [response.json()] rejects (parse). *)
Definition requestFails (url : Url) (error : string) : Prop :=
  fetch env url = Rejected error
  \/ exists response,
       fetch env url = Fulfilled response /\ json response = Rejected error.

(** The entities built from the places and their clamped positions, one
    for one. *)
Definition placeEntities (places : list PlaceFeature)
    (clamped : list Cartesian3) : list Entity :=
  map (fun pc => placeEntity (fst pc) (snd pc)) (combine places clamped).

End Component.


(* ================================================================= *)
(** ** A small engine and a few worlds to evaluate the component on *)

(** A point is kept as its geodetic coordinates, and angles are measured in
    half turns, so that the conversion from degrees stays rational. *)
#[export] Instance geodeticEngine : CesiumType :=
  {| Cartesian3 := Cartographic;
     Cesium3DTileset := Z;
     Cartesian3_fromDegrees := fun lon lat =>
       {| longitude := lon / 180; latitude := lat / 180; height := 0 |};
     Cartesian3_fromRadians := fun lon lat h =>
       {| longitude := lon; latitude := lat; height := h |};
     Cartographic_fromCartesian := fun c => c;
     cartesianToCartographic := fun c => c;
     Math_toDegrees := fun r => (r * 180)%Q;
     Math_toRadians := fun d => (d / 180)%Q |}.

(** *** A runtime without rounding *)

(** Division as IEEE has it on the special values, exact on the finite
    ones. *)
Definition exact_div (x y : Number) : Number :=
  match x, y with
  | NaN, _ | _, NaN => NaN
  | Num a, Num b =>
      match (b ?= 0)%Q, (a ?= 0)%Q with
      | Eq, Eq => NaN
      | Eq, Gt => Infinity
      | Eq, Lt => NegInfinity
      | _, _ => Num (a / b)
      end
  | Num _, _ => Num 0
  | Infinity, Num b =>
      match (b ?= 0)%Q with Lt => NegInfinity | _ => Infinity end
  | NegInfinity, Num b =>
      match (b ?= 0)%Q with Lt => Infinity | _ => NegInfinity end
  | _, _ => NaN
  end.

(** Subtraction as IEEE has it on the special values, exact on the finite
    ones. *)
Definition exact_sub (x y : Number) : Number :=
  match x, y with
  | NaN, _ | _, NaN => NaN
  | Num a, Num b => Num (a - b)
  | Num _, Infinity => NegInfinity
  | Num _, NegInfinity => Infinity
  | Infinity, Infinity => NaN
  | Infinity, _ => Infinity
  | NegInfinity, NegInfinity => NaN
  | NegInfinity, _ => NegInfinity
  end.

(** [Math.log2] on the special values, on zero and on the negative numbers
    as the language fixes it.  On a positive number the logarithm is
    rounded up to the next integer: that leaves [Math.floor(19 - _)] as it
    is in exact arithmetic. *)
Definition ceil_log2 (x : Number) : Number :=
  match x with
  | NaN => NaN
  | Infinity => Infinity
  | NegInfinity => NaN
  | Num q =>
      match (q ?= 0)%Q with
      | Lt => NaN
      | Eq => NegInfinity
      | Gt => Num (inject_Z (log2_ceil q))
      end
  end.

(** The runtime the component is evaluated on below.  Its levels are those
    of exact arithmetic; those of a runtime that rounds can differ next to
    the boundary between two levels. *)
#[export] Instance exactArithmetic : Float64 :=
  {| Number_div := exact_div;
     Number_sub := exact_sub;
     Math_log2 := ceil_log2 |}.

Definition placeX : PlaceFeature :=
  {| coordinates := (10, 20)%Q; names_primary := "X" |}.

Definition placeY : PlaceFeature :=
  {| coordinates := (11, 21)%Q; names_primary := "Y" |}.

(** The surface lies 5 m above the ellipsoid everywhere. *)
Definition surface (c : Cartographic) : option Cartographic :=
  Some {| longitude := longitude c; latitude := latitude c; height := 5 |}.

Definition overhead (h : Q) (r : option Rectangle) : Camera :=
  {| camera_position := {| longitude := 0; latitude := 0; height := h |};
     computeViewRectangle := r |}.

Definition someRectangle : Rectangle :=
  {| west := 0; south := 0; east := (1 # 1000)%Q; north := (1 # 1000)%Q |}.

(** The tileset loads, the surface is known, the service answers with two
    places. *)
Definition online : Environment :=
  {| NEXT_PUBLIC_CESIUM_TOKEN := Some "token"%string;
     homeCamera := overhead 20000000 (Some someRectangle);
     fromIonAssetId := fun id => Fulfilled id;
     clampToHeightMostDetailed := fun cs => Fulfilled (map surface cs);
     fetch := fun _ =>
       Fulfilled {| json := Fulfilled {| features := [placeX; placeY] |} |} |}.

(** As [online], but the request fails. *)
Definition offline : Environment :=
  {| NEXT_PUBLIC_CESIUM_TOKEN := NEXT_PUBLIC_CESIUM_TOKEN online;
     homeCamera := homeCamera online;
     fromIonAssetId := fromIonAssetId online;
     clampToHeightMostDetailed := clampToHeightMostDetailed online;
     fetch := fun _ => Rejected "Failed to fetch" |}.

(** As [online], but the batched clamp is rejected. *)
Definition noTerrain : Environment :=
  {| NEXT_PUBLIC_CESIUM_TOKEN := NEXT_PUBLIC_CESIUM_TOKEN online;
     homeCamera := homeCamera online;
     fromIonAssetId := fromIonAssetId online;
     clampToHeightMostDetailed := fun _ => Rejected "clamp failed";
     fetch := fetch online |}.

(** As [online], but only the first position of a batch can be clamped. *)
Definition patchy : Environment :=
  {| NEXT_PUBLIC_CESIUM_TOKEN := NEXT_PUBLIC_CESIUM_TOKEN online;
     homeCamera := homeCamera online;
     fromIonAssetId := fromIonAssetId online;
     clampToHeightMostDetailed := fun cs =>
       Fulfilled
         match cs with
         | [] => []
         | c :: rest => surface c :: map (fun _ => None) rest
         end;
     fetch := fetch online |}.

(** The [div] is mounted, nothing has run yet. *)
Definition mounted : World :=
  {| cesiumContainerRef := true;
     cesiumViewer := None;
     Ion_defaultAccessToken := None;
     constructed := 0;
     console := [];
     requests := [];
     clock := 0;
     timerId := None;
     invoked := [] |}.

(** A viewer that listens to the camera, looks from [h] metres with view
    rectangle [r], and shows the marker of [placeY] from an earlier cycle. *)
Definition oldMarker : Entity :=
  placeEntity placeY
    {| longitude := 11 # 180; latitude := 21 # 180; height := 5 |}.

Definition sampleViewer (h : Q) (r : option Rectangle) : Viewer :=
  {| options := viewerOptions;
     resolutionScale := 4;
     globe_show := false;
     primitives := [2275207%Z];
     camera := overhead h r;
     moveEnd := [DebouncedUpdatePlaces];
     entities := [oldMarker] |}.

Definition viewing (h : Q) (r : option Rectangle) : World :=
  {| cesiumContainerRef := true;
     cesiumViewer := Some (sampleViewer h r);
     Ion_defaultAccessToken := Some "token"%string;
     constructed := 1;
     console := [];
     requests := [];
     clock := 1000;
     timerId := None;
     invoked := [] |}.

(** Where the surface is, under the two places. *)
Definition clampedX : Cartographic :=
  {| longitude := 10 / 180; latitude := 20 / 180; height := 5 |}.

Definition clampedY : Cartographic :=
  {| longitude := 11 / 180; latitude := 21 / 180; height := 5 |}.

(* ================================================================= *)
(** ** Sanity checks of the model

    All of them on [exactArithmetic], the runtime without rounding. *)

Example zoom_1000 : zoomLevel 1000 = Zoom 19.
Proof. reflexivity. Qed.

Example zoom_8000 : zoomLevel 8000 = Zoom 16.
Proof. reflexivity. Qed.

Example zoom_8001 : zoomLevel 8001 = Zoom 15.
Proof. reflexivity. Qed.

Example zoom_third : zoomLevel (1 # 3) = Zoom 30.
Proof. reflexivity. Qed.

Example zoom_below_ellipsoid : above15 (zoomLevel (-5)) = false.
Proof. reflexivity. Qed.

Example zoom_on_ellipsoid : zoomLevel 0 = ZoomInfinity.
Proof. reflexivity. Qed.

Example refresh_street_level :
  map (fun e => Label.text (label e))
      (markers (updatePlaces online (viewing 500 (Some someRectangle))))
  = ["X"; "Y"]%string.
Proof. vm_compute. reflexivity. Qed.

Example refresh_high_up :
  markers (updatePlaces online (viewing 20000 (Some someRectangle))) = [].
Proof. vm_compute. reflexivity. Qed.

Example mount_then_wait :
  invoked
    (run online [Mount; TilesetSettled; Elapse 299; Elapse 1; Elapse 500]
       mounted)
  = [300].
Proof. vm_compute. reflexivity. Qed.

(** A batch that is clamped in part: the entity before the gap stays, the
    error is logged. *)
Example refresh_patchy_surface :
  let w := updatePlaces patchy (viewing 500 (Some someRectangle)) in
  map (fun e => Label.text (label e)) (markers w) = ["X"]%string
  /\ console w = ["Error clamping positions to height: TypeError"]%string.
Proof. vm_compute. split; reflexivity. Qed.

Example refresh_offline :
  let w := updatePlaces offline (viewing 500 (Some someRectangle)) in
  markers w = []
  /\ length (requests w) = 1
  /\ console w
     = ["Error fetching Overture Maps data: Failed to fetch"]%string.
Proof. vm_compute. repeat split; reflexivity. Qed.

Example move_after_cleanup_schedules_again :
  invoked
    (run online
       [Unmount; MoveEnd (overhead 500 None); Elapse 300]
       (viewing 500 None))
  = [1300].
Proof. vm_compute. reflexivity. Qed.

Example cleanup_then_wait :
  invoked
    (run online [Mount; TilesetSettled; Elapse 100; Unmount; Elapse 1000]
       mounted)
  = [].
Proof. vm_compute. reflexivity. Qed.

(** The tileset takes 2 s to load: the first refresh is due 300 ms after
    that, also when the cleanup ran in the meantime. *)
Example slow_tileset :
  invoked (run online [Mount; Elapse 2000; TilesetSettled; Elapse 300] mounted)
  = [2300].
Proof. vm_compute. reflexivity. Qed.

Example cleanup_while_loading :
  invoked
    (run online [Mount; Unmount; Elapse 2000; TilesetSettled; Elapse 300]
       mounted)
  = [2300].
Proof. vm_compute. reflexivity. Qed.

Example mount_then_burst :
  invoked
    (run online
       ([Mount; TilesetSettled; Elapse 250]
          ++ burst (overhead 9000 None) [(200, overhead 500 None)]
          ++ [Elapse 1000])
       mounted)
  = [750].
Proof. vm_compute. reflexivity. Qed.

(* ================================================================= *)
(** ** The zoom level in exact arithmetic

    What follows is about [exactArithmetic], the runtime without rounding:
    there the level is the floor of [19 - log2 (height / 1000)] over the
    reals.  None of it is used for the refresh cycle, which holds for
    every runtime. *)

Lemma log2_floor_quotient (p q : Z) :
  (0 < p <= q)%Z ->
  let j := Z.log2 (q / p) in
  (0 <= j /\ 2 ^ j * p <= q < 2 ^ (j + 1) * p)%Z.
Proof.
  intros Hpq j.
  assert (Hd : (1 <= q / p)%Z) by (apply Z.div_le_lower_bound; lia).
  destruct (Z.log2_spec (q / p)) as [Hlo Hhi]; [lia|].
  fold j in Hlo, Hhi. replace (Z.succ j) with (j + 1)%Z in Hhi by lia.
  pose proof (Z.log2_nonneg (q / p)) as Hj. fold j in Hj.
  pose proof (Z.mod_pos_bound q p ltac:(lia)) as H2.
  pose proof (Z.div_mod q p ltac:(lia)) as H3.
  repeat split; try assumption; nia.
Qed.

Lemma log2_up_ceil_quotient (p q : Z) :
  (0 < q < p)%Z ->
  let m := Z.log2_up ((p + q - 1) / q) in
  (1 <= m /\ q * 2 ^ (m - 1) < p <= q * 2 ^ m)%Z.
Proof.
  intros Hpq m.
  set (c := ((p + q - 1) / q)%Z) in *.
  assert (Hc : (2 <= c)%Z) by (apply Z.div_le_lower_bound; lia).
  destruct (Z.log2_up_spec c) as [Hlo Hhi]; [lia|].
  fold m in Hlo, Hhi. replace (Z.pred m) with (m - 1)%Z in Hlo by lia.
  assert (Hm : (1 <= m)%Z).
  { destruct (Z.le_gt_cases 1 m) as [|Hlt]; [assumption|].
    pose proof (Z.log2_up_nonneg c) as Hn. fold m in Hn.
    assert (E : m = 0%Z) by lia. rewrite E in Hhi. simpl in Hhi. lia. }
  pose proof (Z.mod_pos_bound (p + q - 1) q ltac:(lia)) as H2.
  pose proof (Z.div_mod (p + q - 1) q ltac:(lia)) as H3. fold c in H3.
  assert (0 < 2 ^ (m - 1))%Z by (apply Z.pow_pos_nonneg; lia).
  repeat split; try assumption; nia.
Qed.

Section RealLog.
Local Open Scope R_scope.

Lemma IZR_pow2 (j : Z) : (0 <= j)%Z -> IZR (2 ^ j) = Rpower 2 (IZR j).
Proof.
  intros Hj. rewrite <- (Z2Nat.id j Hj) at 1.
  rewrite <- pow_IZR, <- Rpower_pow by lra.
  now rewrite INR_IZR_INZ, Z2Nat.id.
Qed.

Lemma ln2_pos : 0 < ln 2.
Proof. rewrite <- ln_1. apply ln_increasing; lra. Qed.

Lemma div_gt_of_mul (a b c : R) : 0 < c -> a * c < b -> a < b / c.
Proof.
  intros Hc H. apply Rmult_lt_reg_r with c; [assumption|].
  replace (b / c * c) with b by (field; lra). assumption.
Qed.

Lemma div_le_of_mul (a b c : R) : 0 < c -> b <= a * c -> b / c <= a.
Proof.
  intros Hc H. apply Rmult_le_reg_r with c; [assumption|].
  replace (b / c * c) with b by (field; lra). assumption.
Qed.

Lemma inv_mul_lt (r c b : R) : 0 < r -> c < r * b -> / r * c < b.
Proof.
  intros Hr H. apply Rmult_lt_reg_l with r; [assumption|].
  replace (r * (/ r * c)) with c by (field; lra). assumption.
Qed.

Lemma inv_mul_ge (r c b : R) : 0 < r -> r * b <= c -> b <= / r * c.
Proof.
  intros Hr H. apply Rmult_le_reg_l with r; [assumption|].
  replace (r * (/ r * c)) with c by (field; lra). assumption.
Qed.

(** Between two consecutive powers of two the floor is known. *)
Lemma floor_log2_between (x : R) (m : Z) :
  Rpower 2 (IZR m - 1) < x <= Rpower 2 (IZR m) ->
  Int_part (19 - log2R x) = (19 - m)%Z.
Proof.
  intros [Hlo Hhi]. symmetry. apply Int_part_spec.
  assert (Hx : 0 < x).
  { eapply Rlt_trans; [|exact Hlo]. apply exp_pos. }
  pose proof ln2_pos as L2.
  assert (Hl : (IZR m - 1) * ln 2 < ln x).
  { rewrite <- ln_Rpower. apply ln_increasing; [apply exp_pos | assumption]. }
  assert (Hu : ln x <= IZR m * ln 2).
  { rewrite <- ln_Rpower. destruct Hhi as [Hhi|Hhi].
    - left. apply ln_increasing; assumption.
    - right. now rewrite Hhi. }
  unfold log2R. rewrite minus_IZR.
  assert (IZR m - 1 < ln x / ln 2) by (apply div_gt_of_mul; assumption).
  assert (ln x / ln 2 <= IZR m) by (apply div_le_of_mul; assumption).
  lra.
Qed.

Lemma log2_ceil_floor (x : Q) :
  (0 < x)%Q -> Int_part (19 - log2R (Q2R x)) = (19 - log2_ceil x)%Z.
Proof.
  destruct x as [p q]. intros Hx.
  assert (Hp : (0 < p)%Z) by (unfold Qlt in Hx; simpl in Hx; lia).
  apply floor_log2_between. unfold log2_ceil, Q2R. cbn [Qnum Qden].
  assert (Hq : 0 < IZR (Zpos q)) by (apply IZR_lt; lia).
  fold (IZR p / IZR (Zpos q)).
  destruct (Z.leb_spec p (Zpos q)) as [Hle|Hgt].
  - destruct (@log2_floor_quotient p (Zpos q)) as (Hj & Ha & Hb); [lia|].
    set (j := Z.log2 (Zpos q / p)) in *.
    apply IZR_le in Ha. apply IZR_lt in Hb.
    rewrite mult_IZR, IZR_pow2 in Ha, Hb by lia.
    rewrite plus_IZR in Hb.
    rewrite opp_IZR.
    replace (- IZR j - 1) with (- (IZR j + 1)) by lra.
    rewrite !Rpower_Ropp.
    split.
    + apply div_gt_of_mul; [assumption|].
      apply inv_mul_lt; [apply exp_pos | assumption].
    + apply div_le_of_mul; [assumption|].
      apply inv_mul_ge; [apply exp_pos | assumption].
  - destruct (@log2_up_ceil_quotient p (Zpos q)) as (Hm & Ha & Hb); [lia|].
    set (m := Z.log2_up ((p + Zpos q - 1) / Zpos q)) in *.
    apply IZR_lt in Ha. apply IZR_le in Hb.
    rewrite mult_IZR, IZR_pow2 in Ha, Hb by lia.
    rewrite minus_IZR in Ha.
    split.
    + apply div_gt_of_mul; [assumption|]. lra.
    + apply div_le_of_mul; [assumption|]. lra.
Qed.

Lemma Q2R_thousandth (h : Q) : Q2R (h / 1000) = Q2R h / 1000.
Proof.
  rewrite Q2R_div by discriminate.
  f_equal. unfold Q2R. simpl. lra.
Qed.

Lemma exact_zoomLevel (h : Q) :
  (0 < h)%Q -> zoomLevel h = Zoom (19 - log2_ceil (h / 1000)).
Proof.
  intros Hh. unfold zoomLevel. cbn [Number_div exactArithmetic exact_div].
  change (1000 ?= 0)%Q with Gt. cbv iota.
  assert (Hc : (h / 1000 ?= 0)%Q = Gt).
  { apply Qgt_alt. apply Qlt_shift_div_l; [reflexivity|].
    now rewrite Qmult_0_l. }
  cbn [Math_log2 exactArithmetic ceil_log2]. rewrite Hc.
  cbn [Number_sub exactArithmetic exact_sub Math_floor]. f_equal.
  assert (E : (19 - inject_Z (log2_ceil (h / 1000))
               == inject_Z (19 - log2_ceil (h / 1000)))%Q).
  { unfold Zminus. rewrite inject_Z_plus, inject_Z_opp. reflexivity. }
  rewrite E. apply Qfloor_Z.
Qed.

(** Without rounding, the level is the expression of the source read over
    the reals. *)
Lemma zoomLevel_positive (h : Q) :
  (0 < h)%Q -> zoomLevel h = Zoom (zoomLevelR (Q2R h)).
Proof.
  intros Hh. rewrite (exact_zoomLevel h Hh). unfold zoomLevelR. f_equal.
  rewrite <- Q2R_thousandth. symmetry. apply log2_ceil_floor.
  apply Qlt_shift_div_l; [reflexivity|]. now rewrite Qmult_0_l.
Qed.

Lemma zoomLevelR_of_Q (h : Q) (k : Z) :
  (0 < h)%Q -> zoomLevel h = Zoom k -> zoomLevelR (Q2R h) = k.
Proof.
  intros Hh E. rewrite (zoomLevel_positive h Hh) in E. now inversion E.
Qed.

(** Over the reals the expression gives 19 at 1000 m and 9 at
    1,000,000 m. *)
Lemma zoomLevelR_at_1000_and_1000000 :
  zoomLevelR 1000 = 19%Z /\ zoomLevelR 1000000 = 9%Z.
Proof.
  split.
  - replace 1000%R with (Q2R 1000) by (unfold Q2R; simpl; lra).
    apply zoomLevelR_of_Q; reflexivity.
  - replace 1000000%R with (Q2R 1000000) by (unfold Q2R; simpl; lra).
    apply zoomLevelR_of_Q; reflexivity.
Qed.

End RealLog.

(* ================================================================= *)
(** ** The refresh cycle *)

Section Refresh.
Context `{CesiumJs : CesiumType} `{Runtime : Float64}.
Variable env : Environment.

Lemma setViewer_same (w : World) : setViewer (cesiumViewer w) w = w.
Proof. destruct w; reflexivity. Qed.

Lemma markers_setViewer (v : Viewer) (w : World) :
  markers (setViewer (Some v) w) = entities v.
Proof. reflexivity. Qed.

Lemma markers_console_error (m e : string) (w : World) :
  markers (console_error m e w) = markers w.
Proof. reflexivity. Qed.

Lemma isZoomAbove15_viewer (w : World) (v : Viewer) :
  cesiumViewer w = Some v ->
  isZoomAbove15 w = above15 (zoomLevel (cameraHeight v)).
Proof. intros E. unfold isZoomAbove15. now rewrite E. Qed.

Lemma isZoomAbove15_true_viewer (w : World) :
  isZoomAbove15 w = true -> exists v, cesiumViewer w = Some v.
Proof.
  unfold isZoomAbove15. destruct (cesiumViewer w) as [v|]; [eauto|discriminate].
Qed.

(** The gateway leaves the viewer alone. *)
Lemma fetchOverturePlaces_viewer (w : World) :
  cesiumViewer (fst (fetchOverturePlaces env w)) = cesiumViewer w.
Proof.
  unfold fetchOverturePlaces.
  destruct (isZoomAbove15 w); simpl; [|reflexivity].
  destruct (getCurrentBoundingBox w) as [b|]; [|reflexivity].
  destruct (fetch env (apiUrl b)) as [response|error]; [|reflexivity].
  destruct (json response); reflexivity.
Qed.

(** Without a view rectangle the gateway returns at once. *)
Lemma fetchOverturePlaces_no_rectangle (w : World) :
  getCurrentBoundingBox w = None -> fetchOverturePlaces env w = (w, []).
Proof.
  intros E. unfold fetchOverturePlaces. rewrite E.
  destruct (isZoomAbove15 w); reflexivity.
Qed.

Lemma getCurrentBoundingBox_none (w : World) (v : Viewer) :
  cesiumViewer w = Some v ->
  computeViewRectangle (camera v) = None ->
  getCurrentBoundingBox w = None.
Proof. intros E R. unfold getCurrentBoundingBox. now rewrite E, R. Qed.

(** The renderer on the empty list: the scene is empty afterwards and no
    request was sent, whatever the clamp of no positions settles to. *)
Lemma addPlaceLabels_nil (w : World) (v : Viewer) :
  cesiumViewer w = Some v ->
  markers (addPlaceLabels env [] w) = []
  /\ requests (addPlaceLabels env [] w) = requests w.
Proof.
  intros E. unfold addPlaceLabels. rewrite E. simpl.
  destruct (clampToHeightMostDetailed env []); split; reflexivity.
Qed.

Lemma addPlaceLabels_rejected (places : list PlaceFeature) (w : World)
    (v : Viewer) (error : string) :
  cesiumViewer w = Some v ->
  clampToHeightMostDetailed env (map placeCartesian places) = Rejected error ->
  addPlaceLabels env places w
  = console_error "Error clamping positions to height:" error
      (setViewer (Some (entities_removeAll v)) w).
Proof. intros E C. unfold addPlaceLabels. now rewrite E, C. Qed.

(** C10.  While [cesiumViewer.current] is [null], [isZoomAbove15] answers
    [false] and a refresh leaves the world as it is: no request is sent, no
    entity is added or removed, nothing is logged.  The gateway and the
    renderer are no-ops of their own in that state. *)
Theorem updatePlaces_without_viewer (w : World) :
  cesiumViewer w = None ->
  isZoomAbove15 w = false
  /\ updatePlaces env w = w
  /\ fetchOverturePlaces env w = (w, [])
  /\ forall places, addPlaceLabels env places w = w.
Proof.
  intros E.
  assert (Z : isZoomAbove15 w = false) by (unfold isZoomAbove15; now rewrite E).
  repeat split.
  - exact Z.
  - unfold updatePlaces. now rewrite Z, E.
  - unfold fetchOverturePlaces. now rewrite Z.
  - intros places. unfold addPlaceLabels. now rewrite E.
Qed.

(** C4.  With a viewer whose zoom level is 15 or less, a refresh does
    nothing but [entities.removeAll()]: the scene is empty afterwards and
    the list of requests sent is the one before. *)
Theorem updatePlaces_at_or_below_15 (w : World) (v : Viewer) (level : Z) :
  cesiumViewer w = Some v ->
  zoomLevel (cameraHeight v) = Zoom level ->
  (level <= 15)%Z ->
  updatePlaces env w = setViewer (Some (entities_removeAll v)) w
  /\ markers (updatePlaces env w) = []
  /\ requests (updatePlaces env w) = requests w.
Proof.
  intros E L H.
  assert (Z : isZoomAbove15 w = false).
  { rewrite (isZoomAbove15_viewer w v E), L. simpl. apply Z.ltb_ge. exact H. }
  assert (U : updatePlaces env w = setViewer (Some (entities_removeAll v)) w).
  { unfold updatePlaces. now rewrite Z, E. }
  rewrite U. repeat split.
Qed.

(** C1, as the code has it.  With a viewer whose camera has no view
    rectangle, a refresh sends no request and adds no marker, and it empties
    the scene: the markers of the cycle before are removed. *)
Theorem updatePlaces_without_rectangle (w : World) (v : Viewer) :
  cesiumViewer w = Some v ->
  computeViewRectangle (camera v) = None ->
  markers (updatePlaces env w) = []
  /\ requests (updatePlaces env w) = requests w.
Proof.
  intros E R. unfold updatePlaces.
  destruct (isZoomAbove15 w).
  - rewrite fetchOverturePlaces_no_rectangle
      by (eapply getCurrentBoundingBox_none; eassumption).
    eapply addPlaceLabels_nil; eassumption.
  - rewrite E. split; reflexivity.
Qed.

(** C5.  With a viewer, when the batched clamp is rejected the renderer
    removes every entity, adds none and logs the error; so a refresh whose
    clamp is rejected ends with an empty scene. *)
Theorem clamp_rejected_leaves_no_markers (w : World) (v : Viewer) :
  cesiumViewer w = Some v ->
  (forall places error,
      clampToHeightMostDetailed env (map placeCartesian places)
      = Rejected error ->
      addPlaceLabels env places w
      = console_error "Error clamping positions to height:" error
          (setViewer (Some (entities_removeAll v)) w)
      /\ markers (addPlaceLabels env places w) = [])
  /\ (forall error,
      clampToHeightMostDetailed env
        (map placeCartesian (snd (fetchOverturePlaces env w)))
      = Rejected error ->
      markers (updatePlaces env w) = []).
Proof.
  intros E. split.
  - intros places error C.
    rewrite (addPlaceLabels_rejected places w v error E C). split; reflexivity.
  - intros error C. unfold updatePlaces.
    destruct (isZoomAbove15 w).
    + pose proof (fetchOverturePlaces_viewer w) as V.
      destruct (fetchOverturePlaces env w) as [w1 places]. simpl in V, C.
      rewrite E in V.
      now rewrite (addPlaceLabels_rejected places w1 v error V C).
    + now rewrite E.
Qed.

(** C6.  When the camera is eligible and has a view rectangle, and the
    request fails on the network or on parsing, the gateway sends the
    request, logs the error and returns the empty list; the refresh then
    runs the renderer on the empty list. *)
Theorem fetch_failure_returns_empty (w : World) (b : BoundingBox)
    (error : string) :
  isZoomAbove15 w = true ->
  getCurrentBoundingBox w = Some b ->
  requestFails env (apiUrl b) error ->
  let w1 :=
    console_error "Error fetching Overture Maps data:" error
      (send (apiUrl b) w) in
  fetchOverturePlaces env w = (w1, [])
  /\ updatePlaces env w = addPlaceLabels env [] w1.
Proof.
  intros Z B F w1.
  assert (G : fetchOverturePlaces env w = (w1, [])).
  { unfold fetchOverturePlaces. rewrite Z, B. simpl.
    destruct F as [F | (response & F & J)].
    - now rewrite F.
    - now rewrite F, J. }
  split; [exact G|].
  unfold updatePlaces. now rewrite Z, G.
Qed.

(** *** The renderer when every position is clamped *)

Lemma setEntities_setEntities (es es' : list Entity) (v : Viewer) :
  setEntities es' (setEntities es v) = setEntities es' v.
Proof. reflexivity. Qed.

Lemma nth_error_middle {A : Type} (pre : list A) (x : A) (post : list A) :
  nth_error (pre ++ x :: post) (length pre) = Some x.
Proof. induction pre as [|a pre IH]; simpl; [reflexivity | exact IH]. Qed.

Lemma forEachPlace_all_clamped (places : list PlaceFeature) :
  forall (pre clamped : list Cartesian3) (v : Viewer),
    length clamped = length places ->
    forEachPlace places (length pre) (map Some (pre ++ clamped)) v
    = (setEntities (entities v ++ placeEntities places clamped) v, None).
Proof.
  induction places as [|place places IH]; intros pre clamped v L.
  - destruct clamped; [|discriminate]. simpl.
    unfold placeEntities. simpl. rewrite app_nil_r.
    destruct v; reflexivity.
  - destruct clamped as [|c clamped]; [discriminate|].
    injection L as L. simpl forEachPlace.
    rewrite map_app. simpl map.
    replace (length pre) with (length (map Some pre))
      by apply length_map.
    rewrite nth_error_middle.
    replace (S (length (map Some pre))) with (length (pre ++ [c]))
      by (rewrite length_app, length_map; simpl; lia).
    replace (map Some pre ++ Some c :: map Some clamped)
      with (map Some ((pre ++ [c]) ++ clamped))
      by (rewrite <- app_assoc, map_app; reflexivity).
    rewrite IH by exact L.
    unfold entities_add. rewrite setEntities_setEntities.
    simpl entities. rewrite <- app_assoc. reflexivity.
Qed.

Lemma nth_error_placeEntities (places : list PlaceFeature) :
  forall (clamped : list Cartesian3) (i : nat) (place : PlaceFeature)
         (c : Cartesian3),
    nth_error places i = Some place ->
    nth_error clamped i = Some c ->
    nth_error (placeEntities places clamped) i = Some (placeEntity place c).
Proof.
  induction places as [|p places IH]; intros clamped i place c Hp Hc.
  - destruct i; discriminate.
  - destruct clamped as [|c0 clamped]; [destruct i; discriminate|].
    destruct i as [|i]; simpl in *.
    + injection Hp as ->. injection Hc as ->. reflexivity.
    + apply IH; assumption.
Qed.

Lemma length_placeEntities (places : list PlaceFeature)
    (clamped : list Cartesian3) :
  length clamped = length places ->
  length (placeEntities places clamped) = length places.
Proof.
  intros L. unfold placeEntities.
  rewrite length_map, length_combine, L. apply Nat.min_id.
Qed.

(** C3, as the code has it.  With a viewer, when the batched clamp returns
    a position for every place, the renderer replaces the entities by one
    entity per place, in the order of the input.  The entity sits at the
    label anchor: the place's longitude and latitude, 20 m above the height
    of the clamped position.  Its point and its label are both drawn there,
    the label shows [properties.names.primary], both are shown up to a
    distance of 6000 with the depth test disabled, and the line runs from
    the clamped position to the anchor and is shown up to 1000. *)
Theorem addPlaceLabels_one_entity_per_place (w : World) (v : Viewer)
    (places : list PlaceFeature) (clamped : list Cartesian3) :
  cesiumViewer w = Some v ->
  clampToHeightMostDetailed env (map placeCartesian places)
  = Fulfilled (map Some clamped) ->
  length clamped = length places ->
  let w' := addPlaceLabels env places w in
  w' = setViewer (Some (setEntities (placeEntities places clamped) v)) w
  /\ length (markers w') = length places
  /\ forall i place c,
      nth_error places i = Some place ->
      nth_error clamped i = Some c ->
      exists e,
        nth_error (markers w') i = Some e
        /\ let anchor :=
             Cartesian3_fromRadians
               (Math_toRadians (fst (coordinates place)))
               (Math_toRadians (snd (coordinates place)))
               (height (Cartographic_fromCartesian c) + 20) in
           position e = anchor
           /\ pointPosition e = anchor
           /\ labelAnchor e = anchor
           /\ Polyline.positions (polyline e) = [c; anchor]
           /\ Label.text (label e) = names_primary place
           /\ Label.distanceDisplayCondition (label e)
              = {| near := 0; far := 6000 |}
           /\ Point.distanceDisplayCondition (point e)
              = {| near := 0; far := 6000 |}
           /\ Label.disableDepthTestDistance (label e) = POSITIVE_INFINITY
           /\ Point.disableDepthTestDistance (point e) = POSITIVE_INFINITY
           /\ Polyline.distanceDisplayCondition (polyline e)
              = {| near := 0; far := 1000 |}.
Proof.
  intros E C L w'.
  assert (W : w' = setViewer
                     (Some (setEntities (placeEntities places clamped) v)) w).
  { unfold w', addPlaceLabels. rewrite E, C.
    rewrite (forEachPlace_all_clamped places [] clamped _ L).
    reflexivity. }
  rewrite W. split; [reflexivity|]. split.
  - simpl. apply length_placeEntities. exact L.
  - intros i place c Hp Hc. exists (placeEntity place c). split.
    + simpl. apply nth_error_placeEntities; assumption.
    + unfold pointPosition, labelAnchor, placeEntity, labelPosition,
        heightOffset. simpl.
      destruct (coordinates place) as [lon lat]. simpl.
      repeat split; reflexivity.
Qed.

(** *** [initializeCesium] *)

Lemma initializeCesium_viewer (w : World) :
  cesiumContainerRef w = true ->
  exists v, cesiumViewer (initializeCesium env w) = Some v.
Proof.
  intros M. unfold initializeCesium. rewrite M.
  destruct (cesiumViewer w) as [v|] eqn:E; [exists v; exact E|].
  unfold add3DTiles. simpl.
  destruct (fromIonAssetId env 2275207); simpl; eauto.
Qed.

Lemma initializeCesium_constructed (w : World) :
  cesiumContainerRef w = true ->
  cesiumViewer w = None ->
  constructed (initializeCesium env w) = S (constructed w).
Proof.
  intros M E. unfold initializeCesium. rewrite M, E.
  unfold add3DTiles. simpl.
  destruct (fromIonAssetId env 2275207); reflexivity.
Qed.

(** After the first call the camera has the debounced refresh as its one
    listener, and the first refresh is scheduled. *)
Lemma initializeCesium_listens (w : World) :
  cesiumContainerRef w = true ->
  cesiumViewer w = None ->
  timerId (initializeCesium env w) = Some (clock w + 300)
  /\ exists v,
       cesiumViewer (initializeCesium env w) = Some v
       /\ moveEnd v = [DebouncedUpdatePlaces]
       /\ resolutionScale v = 4%Q
       /\ globe_show v = false
       /\ entities v = [].
Proof.
  intros M E. unfold initializeCesium. rewrite M, E.
  unfold add3DTiles. simpl.
  destruct (fromIonAssetId env 2275207); simpl;
    (split; [reflexivity | eexists; repeat split; reflexivity]).
Qed.

Lemma initializeCesium_existing (w : World) (v : Viewer) :
  cesiumViewer w = Some v -> initializeCesium env w = w.
Proof.
  intros E. unfold initializeCesium. rewrite E.
  destruct (cesiumContainerRef w); reflexivity.
Qed.

(** C9.  A call of [initializeCesium] while a viewer exists changes
    nothing: no viewer is constructed, no option or token is set again, no
    listener is added, no refresh is scheduled.  So on a mounted container
    without a viewer, any number of calls, one or more, construct one
    viewer and leave the world of the first call. *)
Theorem initializeCesium_runs_once (w : World) :
  (forall v, cesiumViewer w = Some v -> initializeCesium env w = w)
  /\ (cesiumContainerRef w = true ->
      cesiumViewer w = None ->
      forall n,
        Nat.iter (S n) (initializeCesium env) w = initializeCesium env w
        /\ constructed (Nat.iter (S n) (initializeCesium env) w)
           = S (constructed w)).
Proof.
  split; [apply initializeCesium_existing|].
  intros M E n.
  assert (I : Nat.iter (S n) (initializeCesium env) w
              = initializeCesium env w).
  { induction n as [|n IH]; [reflexivity|].
    change (Nat.iter (S (S n)) (initializeCesium env) w)
      with (initializeCesium env (Nat.iter (S n) (initializeCesium env) w)).
    rewrite IH.
    destruct (initializeCesium_viewer w M) as [v V].
    exact (initializeCesium_existing _ v V). }
  rewrite I. split; [reflexivity|].
  apply initializeCesium_constructed; assumption.
Qed.

(** *** The timer *)

Lemma setTimer_setTimer (a a' : nat) (b b' : option nat) (c c' : list nat)
    (w : World) :
  setTimer a b c (setTimer a' b' c' w) = setTimer a b c w.
Proof. reflexivity. Qed.

Lemma setTimer_same (w : World) :
  setTimer (clock w) (timerId w) (invoked w) w = w.
Proof. destruct w; reflexivity. Qed.

(** The refresh neither reads nor writes the timer. *)
Lemma fetchOverturePlaces_setTimer (a : nat) (b : option nat) (c : list nat)
    (w : World) :
  fetchOverturePlaces env (setTimer a b c w)
  = (setTimer a b c (fst (fetchOverturePlaces env w)),
     snd (fetchOverturePlaces env w)).
Proof.
  unfold fetchOverturePlaces.
  change (isZoomAbove15 (setTimer a b c w)) with (isZoomAbove15 w).
  change (getCurrentBoundingBox (setTimer a b c w))
    with (getCurrentBoundingBox w).
  destruct (isZoomAbove15 w); simpl; [|reflexivity].
  destruct (getCurrentBoundingBox w) as [bb|]; [|reflexivity].
  destruct (fetch env (apiUrl bb)) as [response|error]; [|reflexivity].
  destruct (json response); reflexivity.
Qed.

Lemma addPlaceLabels_setTimer (a : nat) (b : option nat) (c : list nat)
    (places : list PlaceFeature) (w : World) :
  addPlaceLabels env places (setTimer a b c w)
  = setTimer a b c (addPlaceLabels env places w).
Proof.
  unfold addPlaceLabels.
  change (cesiumViewer (setTimer a b c w)) with (cesiumViewer w).
  destruct (cesiumViewer w) as [v|]; [|reflexivity].
  destruct (clampToHeightMostDetailed env (map placeCartesian places))
    as [clamped|error]; [|reflexivity].
  destruct (forEachPlace places 0 clamped (entities_removeAll v))
    as [v2 [error|]]; reflexivity.
Qed.

Lemma updatePlaces_setTimer (a : nat) (b : option nat) (c : list nat)
    (w : World) :
  updatePlaces env (setTimer a b c w) = setTimer a b c (updatePlaces env w).
Proof.
  unfold updatePlaces.
  change (isZoomAbove15 (setTimer a b c w)) with (isZoomAbove15 w).
  destruct (isZoomAbove15 w).
  - rewrite fetchOverturePlaces_setTimer.
    destruct (fetchOverturePlaces env w) as [w1 places]. simpl.
    apply addPlaceLabels_setTimer.
  - change (cesiumViewer (setTimer a b c w)) with (cesiumViewer w).
    destruct (cesiumViewer w); reflexivity.
Qed.



Lemma last_default_irrelevant {A : Type} (l : list A) :
  forall b d d' : A, last (b :: l) d = last (b :: l) d'.
Proof.
  induction l as [|c l IH]; intros b d d'; [reflexivity|].
  change (last (c :: l) d = last (c :: l) d'). apply IH.
Qed.

Lemma last_cons_default {A : Type} (l : list A) (a d : A) :
  last (a :: l) d = last l a.
Proof.
  destruct l as [|b l]; [reflexivity|].
  change (last (b :: l) d = last (b :: l) a).
  apply last_default_irrelevant.
Qed.

Lemma raiseMoveEnd_listening (c : Camera) (w : World) (v : Viewer) :
  cesiumViewer w = Some v ->
  moveEnd v = [DebouncedUpdatePlaces] ->
  raiseMoveEnd c w
  = setTimer (clock w) (Some (clock w + wait)) (invoked w) (lookFrom c w).
Proof.
  intros E M. unfold raiseMoveEnd, lookFrom. rewrite E, M. reflexivity.
Qed.

(** During a burst the pending execution is pushed back by every event. *)
Lemma run_burst (rest : list (nat * Camera)) :
  forall (first : Camera) (w : World) (v : Viewer),
    cesiumViewer w = Some v ->
    moveEnd v = [DebouncedUpdatePlaces] ->
    Forall (fun gc => fst gc < wait) rest ->
    run env (burst first rest) w
    = setTimer (clock w + duration rest)
        (Some (clock w + duration rest + wait)) (invoked w)
        (lookFrom (lastCamera first rest) w).
Proof.
  induction rest as [|[gap c] rest IH]; intros first w v E M G.
  - simpl. rewrite (raiseMoveEnd_listening first w v E M).
    rewrite !Nat.add_0_r. reflexivity.
  - inversion G as [|x l Hgap G']; subst. simpl in Hgap.
    change (run env (burst first ((gap, c) :: rest)) w)
      with (run env (burst c rest) (elapse env gap (raiseMoveEnd first w))).
    rewrite (raiseMoveEnd_listening first w v E M).
    unfold elapse. cbn [timerId clock setTimer].
    destruct (Nat.leb_spec (clock w + wait) (clock w + gap)) as [H|_];
      [lia|].
    rewrite setTimer_setTimer.
    erewrite IH; [| | | exact G'].
    + unfold lastCamera. cbn [map snd].
      rewrite last_cons_default.
      unfold lookFrom. cbn [cesiumViewer setTimer]. rewrite E.
      cbn [cesiumViewer setViewer clock invoked duration fold_right fst].
      rewrite Nat.add_assoc. reflexivity.
    + unfold lookFrom. rewrite E. reflexivity.
    + exact M.
Qed.

(** C7.  The camera listens with the debounced refresh.  A burst of camera
    events, each less than 300 ms after the one before, followed by at least
    300 ms of quiet, runs [updatePlaces] once: 300 ms after the last event
    of the burst, with the camera of that last event.  Nothing is left
    pending afterwards. *)
Theorem burst_runs_updatePlaces_once (w : World) (v : Viewer)
    (first : Camera) (rest : list (nat * Camera)) (quiet : nat) :
  cesiumViewer w = Some v ->
  moveEnd v = [DebouncedUpdatePlaces] ->
  Forall (fun gc => fst gc < 300) rest ->
  300 <= quiet ->
  let t := clock w + duration rest in
  let w' := run env (burst first rest ++ [Elapse quiet]) w in
  w' = setTimer (t + quiet) None (invoked w ++ [t + 300])
         (updatePlaces env (lookFrom (lastCamera first rest) w))
  /\ invoked w' = invoked w ++ [t + 300]
  /\ timerId w' = None.
Proof.
  intros E M G Q t w'.
  assert (W : w' = setTimer (t + quiet) None (invoked w ++ [t + 300])
                     (updatePlaces env (lookFrom (lastCamera first rest) w))).
  { unfold w', run. rewrite fold_left_app.
    fold (run env (burst first rest) w).
    rewrite (run_burst rest first w v E M G). fold t.
    simpl. unfold elapse, expire. cbn [timerId clock setTimer invoked].
    unfold wait in *.
    destruct (Nat.leb_spec (t + 300) (t + quiet)) as [_|H]; [|lia].
    rewrite Nat.max_l by lia.
    rewrite !updatePlaces_setTimer. reflexivity. }
  rewrite W. repeat split.
Qed.

End Refresh.

(* ================================================================= *)
(** ** The theorems at concrete worlds *)

(** At street level with no view rectangle, the marker of the cycle before
    is gone after the refresh. *)
Lemma missing_rectangle_removes_markers :
  computeViewRectangle (camera (sampleViewer 500 None)) = None
  /\ markers (viewing 500 None) = [oldMarker]
  /\ markers (updatePlaces online (viewing 500 None)) = []
  /\ updatePlaces online (viewing 500 None) <> viewing 500 None.
Proof.
  split; [reflexivity|]. split; [reflexivity|]. split; [reflexivity|].
  intros H. apply (f_equal markers) in H. discriminate H.
Qed.

Lemma updatePlaces_without_rectangle_at_street_level :
  cesiumViewer (viewing 500 None) = Some (sampleViewer 500 None)
  /\ computeViewRectangle (camera (sampleViewer 500 None)) = None
  /\ markers (updatePlaces online (viewing 500 None)) = []
  /\ requests (updatePlaces online (viewing 500 None))
     = requests (viewing 500 None).
Proof.
  split; [reflexivity|]. split; [reflexivity|].
  apply (updatePlaces_without_rectangle online (viewing 500 None)
           (sampleViewer 500 None)); reflexivity.
Defined.

(** The point of the marker of [placeX] is drawn 25 m up, at the anchor of
    the label, while the clamped position is 5 m up. *)
Lemma point_glyph_is_at_label_anchor :
  clampToHeightMostDetailed online (map placeCartesian [placeX])
  = Fulfilled [Some clampedX]
  /\ exists e,
       markers (addPlaceLabels online [placeX]
                  (viewing 500 (Some someRectangle))) = [e]
       /\ Polyline.positions (polyline e) = [clampedX; pointPosition e]
       /\ height clampedX = 5%Q
       /\ height (pointPosition e) = (5 + 20)%Q
       /\ pointPosition e <> clampedX.
Proof.
  split; [reflexivity|].
  eexists. split; [reflexivity|]. split; [reflexivity|].
  split; [reflexivity|]. split; [reflexivity|].
  intros H. apply (f_equal height) in H. discriminate H.
Qed.

Lemma addPlaceLabels_one_entity_per_place_at_two_places :
  let w := viewing 500 (Some someRectangle) in
  let places := [placeX; placeY] in
  let clamped := [clampedX; clampedY] in
  cesiumViewer w = Some (sampleViewer 500 (Some someRectangle))
  /\ clampToHeightMostDetailed online (map placeCartesian places)
     = Fulfilled (map Some clamped)
  /\ length clamped = length places
  /\ addPlaceLabels online places w
     = setViewer
         (Some (setEntities (placeEntities places clamped)
                  (sampleViewer 500 (Some someRectangle)))) w
  /\ length (markers (addPlaceLabels online places w)) = 2.
Proof.
  intros w places clamped.
  split; [reflexivity|]. split; [reflexivity|]. split; [reflexivity|].
  destruct (addPlaceLabels_one_entity_per_place online w
              (sampleViewer 500 (Some someRectangle)) places clamped
              eq_refl eq_refl eq_refl) as (W & L & _).
  split; [exact W | exact L].
Defined.

Lemma updatePlaces_at_or_below_15_at_20km :
  let w := viewing 20000 (Some someRectangle) in
  let v := sampleViewer 20000 (Some someRectangle) in
  cesiumViewer w = Some v
  /\ zoomLevel (cameraHeight v) = Zoom 14
  /\ (14 <= 15)%Z
  /\ updatePlaces online w = setViewer (Some (entities_removeAll v)) w
  /\ markers (updatePlaces online w) = []
  /\ requests (updatePlaces online w) = requests w.
Proof.
  intros w v.
  split; [reflexivity|]. split; [reflexivity|]. split; [discriminate|].
  apply (updatePlaces_at_or_below_15 online w v 14);
    [reflexivity | reflexivity | discriminate].
Defined.

Lemma clamp_rejected_leaves_no_markers_at_street_level :
  let w := viewing 500 (Some someRectangle) in
  cesiumViewer w = Some (sampleViewer 500 (Some someRectangle))
  /\ clampToHeightMostDetailed noTerrain
       (map placeCartesian (snd (fetchOverturePlaces noTerrain w)))
     = Rejected "clamp failed"
  /\ markers (updatePlaces noTerrain w) = [].
Proof.
  intros w.
  split; [reflexivity|]. split; [reflexivity|].
  apply (proj2 (clamp_rejected_leaves_no_markers noTerrain w
                  (sampleViewer 500 (Some someRectangle)) eq_refl)
           "clamp failed"%string).
  reflexivity.
Defined.

Lemma fetch_failure_returns_empty_at_street_level :
  let w := viewing 500 (Some someRectangle) in
  let b := {| bbox_west := 0 * 180; bbox_south := 0 * 180;
              bbox_east := (1 # 1000) * 180;
              bbox_north := (1 # 1000) * 180 |} in
  let w1 := console_error "Error fetching Overture Maps data:"
              "Failed to fetch" (send (apiUrl b) w) in
  isZoomAbove15 w = true
  /\ getCurrentBoundingBox w = Some b
  /\ requestFails offline (apiUrl b) "Failed to fetch"
  /\ fetchOverturePlaces offline w = (w1, [])
  /\ updatePlaces offline w = addPlaceLabels offline [] w1.
Proof.
  intros w b w1.
  split; [reflexivity|]. split; [reflexivity|].
  split; [left; reflexivity|].
  apply (fetch_failure_returns_empty offline w b "Failed to fetch");
    [reflexivity | reflexivity | left; reflexivity].
Defined.

Lemma burst_runs_updatePlaces_once_at_three_events :
  let w := viewing 9000 (Some someRectangle) in
  let rest := [(100, overhead 7000 (Some someRectangle));
               (299, overhead 500 (Some someRectangle))] in
  let w' := run online
              (burst (overhead 8500 None) rest ++ [Elapse 300]) w in
  cesiumViewer w = Some (sampleViewer 9000 (Some someRectangle))
  /\ moveEnd (sampleViewer 9000 (Some someRectangle))
     = [DebouncedUpdatePlaces]
  /\ Forall (fun gc => fst gc < 300) rest
  /\ 300 <= 300
  /\ w' = setTimer (1000 + 399 + 300) None [1000 + 399 + 300]
            (updatePlaces online
               (lookFrom (overhead 500 (Some someRectangle)) w))
  /\ invoked w' = [1000 + 399 + 300]
  /\ timerId w' = None.
Proof.
  intros w rest w'.
  split; [reflexivity|]. split; [reflexivity|].
  split; [repeat constructor; simpl; lia|]. split; [lia|].
  exact (burst_runs_updatePlaces_once online w
           (sampleViewer 9000 (Some someRectangle))
           (overhead 8500 None) rest 300 eq_refl eq_refl
           ltac:(repeat constructor; simpl; lia) ltac:(lia)).
Defined.


Lemma initializeCesium_runs_once_at_mount :
  cesiumContainerRef mounted = true
  /\ cesiumViewer mounted = None
  /\ Nat.iter 3 (initializeCesium online) mounted
     = initializeCesium online mounted
  /\ constructed (Nat.iter 3 (initializeCesium online) mounted) = 1.
Proof.
  split; [reflexivity|]. split; [reflexivity|].
  apply (proj2 (initializeCesium_runs_once online mounted)
           eq_refl eq_refl 2).
Defined.

Lemma updatePlaces_without_viewer_at_mount :
  cesiumViewer mounted = None
  /\ isZoomAbove15 mounted = false
  /\ updatePlaces online mounted = mounted
  /\ fetchOverturePlaces online mounted = (mounted, [])
  /\ forall places, addPlaceLabels online places mounted = mounted.
Proof.
  split; [reflexivity|].
  apply (updatePlaces_without_viewer online mounted). reflexivity.
Defined.

(* ================================================================= *)
(** ** What a refresh touches, and what it leaves alone *)

Section Coverage.
Context `{CesiumJs : CesiumType} `{Runtime : Float64}.
Variable env : Environment.

(** The loop only appends: what it adds and whether it stops on an error
    depend on the places and the clamped positions alone, and each entity
    it adds is the entity of one of the places. *)
Lemma forEachPlace_appends (places : list PlaceFeature)
    (clamped : list (option Cartesian3)) :
  forall index : nat,
  exists (new : list Entity) (err : option string),
    length new <= length places
    /\ Forall (fun e => exists place c,
                 In place places /\ e = placeEntity place c) new
    /\ forall v : Viewer,
         forEachPlace places index clamped v
         = (setEntities (entities v ++ new) v, err).
Proof.
  induction places as [|place places IH]; intros index.
  - exists [], None. split; [apply Nat.le_refl|]. split; [constructor|].
    intros v. simpl. rewrite app_nil_r. destruct v; reflexivity.
  - simpl forEachPlace.
    destruct (nth_error clamped index) as [[c|]|].
    + destruct (IH (S index)) as (new & err & L & F & H).
      exists (placeEntity place c :: new), err.
      split; [simpl; lia|]. split.
      * constructor.
        -- exists place, c. split; [left; reflexivity | reflexivity].
        -- eapply Forall_impl; [|exact F].
           intros e (p & c' & I & Q). exists p, c'.
           split; [right; exact I | exact Q].
      * intros v. rewrite H. unfold entities_add. simpl.
        rewrite <- app_assoc. reflexivity.
    + exists [], (Some "TypeError"%string).
      split; [simpl; lia|]. split; [constructor|].
      intros v. rewrite app_nil_r. destruct v; reflexivity.
    + exists [], (Some "TypeError"%string).
      split; [simpl; lia|]. split; [constructor|].
      intros v. rewrite app_nil_r. destruct v; reflexivity.
Qed.

(** What the renderer does to a world with a viewer, in one equation. *)
Lemma addPlaceLabels_shape (places : list PlaceFeature) (w : World)
    (v : Viewer) :
  cesiumViewer w = Some v ->
  exists (new : list Entity) (logs : list string),
    length new <= length places
    /\ Forall (fun e => exists place c,
                 In place places /\ e = placeEntity place c) new
    /\ length logs <= 1
    /\ cesiumViewer (addPlaceLabels env places w)
       = Some (setEntities new v)
    /\ console (addPlaceLabels env places w) = console w ++ logs
    /\ requests (addPlaceLabels env places w) = requests w
    /\ cesiumContainerRef (addPlaceLabels env places w)
       = cesiumContainerRef w
    /\ Ion_defaultAccessToken (addPlaceLabels env places w)
       = Ion_defaultAccessToken w
    /\ constructed (addPlaceLabels env places w) = constructed w.
Proof.
  intros E. unfold addPlaceLabels. rewrite E.
  destruct (clampToHeightMostDetailed env (map placeCartesian places))
    as [clamped|error].
  - destruct (forEachPlace_appends places clamped 0)
      as (new & err & L & F & H).
    rewrite H. simpl entities.
    destruct err as [error|].
    + exists new. eexists [_]. simpl. repeat split; try assumption.
      apply Nat.le_refl.
    + exists new, []. simpl. rewrite app_nil_r.
      repeat split; try assumption. apply Nat.le_0_l.
  - exists []. eexists [_]. simpl. repeat split.
    + apply Nat.le_0_l.
    + constructor.
    + apply Nat.le_refl.
Qed.

(** What the gateway does to a world, in one equation. *)
Lemma fetchOverturePlaces_shape (w : World) :
  exists (reqs : list Url) (logs : list string),
    length reqs <= 1
    /\ length logs <= 1
    /\ requests (fst (fetchOverturePlaces env w)) = requests w ++ reqs
    /\ console (fst (fetchOverturePlaces env w)) = console w ++ logs
    /\ cesiumViewer (fst (fetchOverturePlaces env w)) = cesiumViewer w
    /\ cesiumContainerRef (fst (fetchOverturePlaces env w))
       = cesiumContainerRef w
    /\ Ion_defaultAccessToken (fst (fetchOverturePlaces env w))
       = Ion_defaultAccessToken w
    /\ constructed (fst (fetchOverturePlaces env w)) = constructed w.
Proof.
  unfold fetchOverturePlaces.
  destruct (isZoomAbove15 w); simpl.
  2: { exists [], []. rewrite !app_nil_r. repeat split; apply Nat.le_0_l. }
  destruct (getCurrentBoundingBox w) as [b|].
  2: { exists [], []. rewrite !app_nil_r. repeat split; apply Nat.le_0_l. }
  destruct (fetch env (apiUrl b)) as [response|error].
  - destruct (json response) as [data|error].
    + eexists [_], []. simpl. rewrite app_nil_r.
      repeat split; [apply Nat.le_refl | apply Nat.le_0_l].
    + eexists [_]. eexists [_]. simpl.
      repeat split; apply Nat.le_refl.
  - eexists [_]. eexists [_]. simpl.
    repeat split; apply Nat.le_refl.
Qed.

(** A refresh changes the entities of the viewer and nothing else of it:
    camera, listeners, primitives, options, resolution and globe stay; so
    do the container, the access token and the number of viewers
    constructed, and the timer. *)
Theorem updatePlaces_frame (w : World) (v : Viewer) :
  cesiumViewer w = Some v ->
  let w' := updatePlaces env w in
  (exists es, cesiumViewer w' = Some (setEntities es v))
  /\ cesiumContainerRef w' = cesiumContainerRef w
  /\ Ion_defaultAccessToken w' = Ion_defaultAccessToken w
  /\ constructed w' = constructed w
  /\ clock w' = clock w
  /\ timerId w' = timerId w
  /\ invoked w' = invoked w.
Proof.
  intros E w'.
  assert (T : clock w' = clock w /\ timerId w' = timerId w
              /\ invoked w' = invoked w).
  { pose proof (updatePlaces_setTimer env (clock w) (timerId w) (invoked w) w)
      as U.
    rewrite setTimer_same in U. unfold w'. rewrite U. repeat split. }
  destruct T as (T1 & T2 & T3).
  unfold w', updatePlaces in *.
  destruct (isZoomAbove15 w).
  - destruct (fetchOverturePlaces_shape w)
      as (reqs & logs & _ & _ & _ & _ & V & C & I & N).
    destruct (fetchOverturePlaces env w) as [w1 places]. simpl in *.
    rewrite E in V.
    destruct (addPlaceLabels_shape places w1 v V)
      as (new & logs' & _ & _ & _ & V' & _ & _ & C' & I' & N').
    split; [exists new; exact V'|].
    rewrite C', I', N', C, I, N. repeat split; assumption.
  - rewrite E. split; [exists []; reflexivity|].
    repeat split.
Qed.

(** A refresh sends at most one request and logs at most two errors, and
    keeps what was sent and logged before. *)
Theorem updatePlaces_sends_and_logs (w : World) :
  exists (reqs : list Url) (logs : list string),
    requests (updatePlaces env w) = requests w ++ reqs
    /\ console (updatePlaces env w) = console w ++ logs
    /\ length reqs <= 1
    /\ length logs <= 2.
Proof.
  unfold updatePlaces.
  destruct (isZoomAbove15 w) eqn:Z.
  - destruct (isZoomAbove15_true_viewer w Z) as [v E].
    destruct (fetchOverturePlaces_shape w)
      as (reqs & logs & Lr & Ll & R & C & V & _).
    destruct (fetchOverturePlaces env w) as [w1 places]. simpl in *.
    rewrite E in V.
    destruct (addPlaceLabels_shape places w1 v V)
      as (new & logs' & _ & _ & Ll' & _ & C' & R' & _).
    exists reqs, (logs ++ logs').
    rewrite R', R, C', C, app_assoc, length_app.
    repeat split; [exact Lr | lia].
  - exists [], []. rewrite !app_nil_r.
    destruct (cesiumViewer w); repeat split; apply Nat.le_0_l.
Qed.

(** The renderer replaces: what it leaves in the scene does not depend on
    what was there, there is at most one entity per place, and every
    entity is the entity of one of the places. *)
Theorem addPlaceLabels_replaces (places : list PlaceFeature) (w : World)
    (v : Viewer) :
  cesiumViewer w = Some v ->
  (forall es,
      markers (addPlaceLabels env places
                 (setViewer (Some (setEntities es v)) w))
      = markers (addPlaceLabels env places w))
  /\ length (markers (addPlaceLabels env places w)) <= length places
  /\ forall e,
       In e (markers (addPlaceLabels env places w)) ->
       exists place c, In place places /\ e = placeEntity place c.
Proof.
  intros E. split.
  - intros es. unfold addPlaceLabels. rewrite E.
    change (cesiumViewer (setViewer (Some (setEntities es v)) w))
      with (Some (setEntities es v)).
    cbv beta iota.
    change (entities_removeAll (setEntities es v))
      with (entities_removeAll v).
    destruct (clampToHeightMostDetailed env (map placeCartesian places))
      as [clamped|error]; [|reflexivity].
    destruct (forEachPlace places 0 clamped (entities_removeAll v))
      as [v2 [error|]]; reflexivity.
  - destruct (addPlaceLabels_shape places w v E)
      as (new & logs & L & F & _ & V & _).
    unfold markers. rewrite V. simpl. split; [exact L|].
    intros e I. rewrite Forall_forall in F. exact (F e I).
Qed.

(** The gateway sends a request exactly when the camera is eligible and
    has a view rectangle, and then one request, whatever comes back: for
    the rectangle in degrees, as GeoJSON, for places, at most 100.  In
    every other case it returns the empty list and leaves the world as it
    is. *)
Theorem fetchOverturePlaces_sends (w : World) :
  (forall v r,
      cesiumViewer w = Some v ->
      computeViewRectangle (camera v) = Some r ->
      isZoomAbove15 w = true ->
      requests (fst (fetchOverturePlaces env w))
      = requests w
          ++ [{| bbox :=
                   {| bbox_west := Math_toDegrees (west r);
                      bbox_south := Math_toDegrees (south r);
                      bbox_east := Math_toDegrees (east r);
                      bbox_north := Math_toDegrees (north r) |};
                 output_format := "geojson";
                 type_ := "place";
                 limit := 100 |}])
  /\ (isZoomAbove15 w = false \/ getCurrentBoundingBox w = None ->
      fetchOverturePlaces env w = (w, [])).
Proof.
  split.
  - intros v r E R Z. unfold fetchOverturePlaces.
    rewrite Z. unfold getCurrentBoundingBox. rewrite E, R. simpl.
    match goal with
    | |- context [fetch env ?u] => destruct (fetch env u) as [response|error]
    end; [|reflexivity].
    destruct (json response); reflexivity.
  - intros [Z|B]; unfold fetchOverturePlaces.
    + now rewrite Z.
    + rewrite B. destruct (isZoomAbove15 w); reflexivity.
Qed.

(** *** A batch that is clamped in part *)

Lemma forEachPlace_stops_at_gap (places : list PlaceFeature) :
  forall (done pre : list Cartesian3) (rest : list (option Cartesian3))
         (v : Viewer),
    length pre < length places ->
    (rest = [] \/ exists tl, rest = None :: tl) ->
    forEachPlace places (length done) (map Some (done ++ pre) ++ rest) v
    = (setEntities
         (entities v ++ placeEntities (firstn (length pre) places) pre) v,
       Some "TypeError"%string).
Proof.
  induction places as [|place places IH]; intros done pre rest v L G.
  - simpl in L. lia.
  - simpl forEachPlace. destruct pre as [|c pre].
    + rewrite app_nil_r.
      replace (length done) with (length (map Some done) + 0)
        by (rewrite length_map; lia).
      rewrite nth_error_app2, Nat.add_comm, Nat.add_sub by lia.
      assert (N : match nth_error rest 0 with
                  | Some (Some _) => False
                  | _ => True
                  end).
      { destruct G as [->|[tl ->]]; exact I. }
      destruct (nth_error rest 0) as [[c|]|]; [contradiction| |];
        simpl; unfold placeEntities; simpl; rewrite app_nil_r;
        destruct v; reflexivity.
    + simpl in L.
      rewrite map_app, <- app_assoc. simpl map. simpl app.
      replace (length done) with (length (map Some done))
        by apply length_map.
      rewrite nth_error_middle.
      replace (S (length (map Some done))) with (length (done ++ [c]))
        by (rewrite length_app, length_map; simpl; lia).
      replace (map Some done ++ Some c :: map Some pre ++ rest)
        with (map Some ((done ++ [c]) ++ pre) ++ rest)
        by (rewrite <- app_assoc, map_app, <- app_assoc; reflexivity).
      rewrite IH by (assumption || lia).
      unfold entities_add. rewrite setEntities_setEntities.
      simpl entities. rewrite <- app_assoc. reflexivity.
Qed.

(** When the clamp is fulfilled but the array has a gap (an [undefined]
    entry, or the array ends) before the places do, the loop throws at the
    gap: the places before it keep their entities, the places from it on
    get none, and the error is logged.  The cycle is not all-or-nothing
    here. *)
Theorem addPlaceLabels_stops_at_gap (places : list PlaceFeature)
    (w : World) (v : Viewer) (pre : list Cartesian3)
    (rest : list (option Cartesian3)) :
  cesiumViewer w = Some v ->
  clampToHeightMostDetailed env (map placeCartesian places)
  = Fulfilled (map Some pre ++ rest) ->
  length pre < length places ->
  (rest = [] \/ exists tl, rest = None :: tl) ->
  addPlaceLabels env places w
  = console_error "Error clamping positions to height:" "TypeError"
      (setViewer
         (Some (setEntities
                  (placeEntities (firstn (length pre) places) pre) v))
         w)
  /\ length (markers (addPlaceLabels env places w)) = length pre.
Proof.
  intros E C L G.
  assert (A : addPlaceLabels env places w
              = console_error "Error clamping positions to height:"
                  "TypeError"
                  (setViewer
                     (Some (setEntities
                              (placeEntities
                                 (firstn (length pre) places) pre) v))
                     w)).
  { unfold addPlaceLabels. rewrite E, C.
    rewrite (forEachPlace_stops_at_gap places [] pre rest _ L G).
    reflexivity. }
  split; [exact A|].
  rewrite A.
  change (length (placeEntities (firstn (length pre) places) pre)
          = length pre).
  rewrite length_placeEntities; rewrite length_firstn; lia.
Qed.

(** *** A refresh in which nothing fails *)

(** When the camera is eligible and has a view rectangle, the service
    answers with features and every position is clamped, a refresh sends
    the one request, logs nothing and leaves exactly the entities of the
    features, in their order. *)
Theorem updatePlaces_success (w : World) (v : Viewer) (r : Rectangle)
    (response : Response) (data : FeatureCollection)
    (clamped : list Cartesian3) :
  cesiumViewer w = Some v ->
  isZoomAbove15 w = true ->
  computeViewRectangle (camera v) = Some r ->
  (forall b, getCurrentBoundingBox w = Some b ->
             fetch env (apiUrl b) = Fulfilled response) ->
  json response = Fulfilled data ->
  clampToHeightMostDetailed env (map placeCartesian (features data))
  = Fulfilled (map Some clamped) ->
  length clamped = length (features data) ->
  exists b,
    getCurrentBoundingBox w = Some b
    /\ updatePlaces env w
       = send (apiUrl b)
           (setViewer
              (Some (setEntities (placeEntities (features data) clamped) v))
              w).
Proof.
  intros E Z R F J C L.
  assert (B : exists b, getCurrentBoundingBox w = Some b).
  { unfold getCurrentBoundingBox. rewrite E, R. eauto. }
  destruct B as [b B]. exists b. split; [exact B|].
  unfold updatePlaces, fetchOverturePlaces.
  rewrite Z, B. simpl. rewrite (F b B), J.
  unfold addPlaceLabels.
  change (cesiumViewer (send (apiUrl b) w)) with (cesiumViewer w).
  rewrite E, C.
  rewrite (forEachPlace_all_clamped (features data) [] clamped _ L).
  reflexivity.
Qed.

(** *** The first call of [initializeCesium] *)


(** *** The start-up refresh *)

Lemma initializeCesium_halves (w : World) :
  cesiumContainerRef w = true ->
  cesiumViewer w = None ->
  initializeCesium env w
  = initializeCesium_resume env (initializeCesium_begin env w).
Proof.
  intros M E. unfold initializeCesium, initializeCesium_begin. now rewrite M, E.
Qed.

Lemma add3DTiles_setTimer (a : nat) (b : option nat) (c : list nat)
    (w : World) :
  add3DTiles env (setTimer a b c w) = setTimer a b c (add3DTiles env w).
Proof.
  unfold add3DTiles.
  change (cesiumViewer (setTimer a b c w)) with (cesiumViewer w).
  destruct (cesiumViewer w); [|reflexivity].
  destruct (fromIonAssetId env 2275207); reflexivity.
Qed.

(** The second half of [initializeCesium] reads the clock and nothing else
    of the timer. *)
Lemma initializeCesium_resume_setTimer (a : nat) (b : option nat)
    (c : list nat) (w : World) :
  initializeCesium_resume env (setTimer a b c w)
  = setTimer a (Some (a + 300)) c
      (camera_moveEnd_addEventListener DebouncedUpdatePlaces
         (add3DTiles env w)).
Proof.
  unfold initializeCesium_resume. rewrite add3DTiles_setTimer.
  unfold camera_moveEnd_addEventListener.
  change (cesiumViewer (setTimer a b c (add3DTiles env w)))
    with (cesiumViewer (add3DTiles env w)).
  destruct (cesiumViewer (add3DTiles env w)); reflexivity.
Qed.

Lemma initializeCesium_begin_timer (w : World) :
  clock (initializeCesium_begin env w) = clock w
  /\ timerId (initializeCesium_begin env w) = timerId w
  /\ invoked (initializeCesium_begin env w) = invoked w.
Proof.
  unfold initializeCesium_begin.
  destruct (cesiumContainerRef w), (cesiumViewer w); repeat split.
Qed.

(** The start-up call [debouncedUpdatePlaces()] comes after
    [await add3DTiles()].  On a mounted container without a viewer and
    with nothing pending, when the tileset takes [load] ms to settle and
    no camera event follows, [updatePlaces] runs once, 300 ms after the
    load settled, whether it succeeded or not, and on the world that
    [initializeCesium] leaves.  Nothing runs while the tileset loads.  A
    cleanup of the effect that runs while the tileset loads changes none
    of this: the refresh still runs. *)
Theorem first_refresh_after_tileset_load (w : World) (cleaned : bool)
    (load quiet : nat) :
  cesiumContainerRef w = true ->
  cesiumViewer w = None ->
  timerId w = None ->
  300 <= quiet ->
  let loading :=
    Mount :: (if cleaned then [Unmount] else []) ++ [Elapse load] in
  let w' := run env (loading ++ [TilesetSettled; Elapse quiet]) w in
  invoked (run env loading w) = invoked w
  /\ w' = setTimer (clock w + load + quiet) None
            (invoked w ++ [clock w + load + 300])
            (updatePlaces env (initializeCesium env w))
  /\ invoked w' = invoked w ++ [clock w + load + 300]
  /\ timerId w' = None.
Proof.
  intros M E T Q loading w'.
  destruct (initializeCesium_begin_timer w) as (K & T' & I).
  rewrite T in T'.
  assert (L : run env loading w
              = setTimer (clock w + load) None (invoked w)
                  (initializeCesium_begin env w)).
  { unfold loading. destruct cleaned; simpl;
      unfold cleanup, debouncedUpdatePlaces_cancel, elapse;
      cbn [timerId clock invoked setTimer]; rewrite ?T', ?K, ?I;
      reflexivity. }
  assert (W : w' = setTimer (clock w + load + quiet) None
                     (invoked w ++ [clock w + load + 300])
                     (updatePlaces env (initializeCesium env w))).
  { unfold w', run. rewrite fold_left_app.
    fold (run env loading w). rewrite L.
    cbn [fold_left step].
    rewrite initializeCesium_resume_setTimer.
    unfold elapse, expire. cbn [timerId clock setTimer invoked].
    destruct (Nat.leb_spec (clock w + load + 300) (clock w + load + quiet))
      as [_|H]; [|lia].
    rewrite Nat.max_l by lia.
    rewrite !updatePlaces_setTimer.
    rewrite (initializeCesium_halves w M E).
    unfold initializeCesium_resume at 1, debouncedUpdatePlaces.
    rewrite updatePlaces_setTimer. reflexivity. }
  split; [rewrite L; reflexivity|].
  rewrite W. repeat split.
Qed.

End Coverage.

(* ================================================================= *)
(** ** The further theorems at concrete worlds *)

Lemma fetchOverturePlaces_sends_at_street_level :
  let w := viewing 500 (Some someRectangle) in
  cesiumViewer w = Some (sampleViewer 500 (Some someRectangle))
  /\ computeViewRectangle (camera (sampleViewer 500 (Some someRectangle)))
     = Some someRectangle
  /\ isZoomAbove15 w = true
  /\ length (requests (fst (fetchOverturePlaces offline w))) = 1
  /\ fetchOverturePlaces offline (viewing 500 None) = (viewing 500 None, []).
Proof.
  intros w.
  split; [reflexivity|]. split; [reflexivity|]. split; [reflexivity|].
  destruct (fetchOverturePlaces_sends offline w) as [S _].
  destruct (fetchOverturePlaces_sends offline (viewing 500 None)) as [_ N].
  split.
  - rewrite (S (sampleViewer 500 (Some someRectangle)) someRectangle
               eq_refl eq_refl eq_refl).
    reflexivity.
  - apply N. right. reflexivity.
Defined.

Lemma updatePlaces_frame_at_street_level :
  let w := viewing 500 (Some someRectangle) in
  let v := sampleViewer 500 (Some someRectangle) in
  let w' := updatePlaces online w in
  cesiumViewer w = Some v
  /\ (exists es, cesiumViewer w' = Some (setEntities es v))
  /\ cesiumContainerRef w' = cesiumContainerRef w
  /\ Ion_defaultAccessToken w' = Ion_defaultAccessToken w
  /\ constructed w' = constructed w
  /\ clock w' = clock w
  /\ timerId w' = timerId w
  /\ invoked w' = invoked w.
Proof.
  intros w v w'. split; [reflexivity|].
  apply (updatePlaces_frame online w v). reflexivity.
Defined.

Lemma addPlaceLabels_replaces_at_street_level :
  let w := viewing 500 (Some someRectangle) in
  let v := sampleViewer 500 (Some someRectangle) in
  cesiumViewer w = Some v
  /\ markers (addPlaceLabels online [placeX]
                (setViewer (Some (setEntities [] v)) w))
     = markers (addPlaceLabels online [placeX] w)
  /\ length (markers (addPlaceLabels online [placeX] w)) <= 1.
Proof.
  intros w v. split; [reflexivity|].
  destruct (addPlaceLabels_replaces online [placeX] w v eq_refl)
    as (R & L & _).
  split; [apply R | exact L].
Defined.

Lemma addPlaceLabels_stops_at_gap_at_second_place :
  let w := viewing 500 (Some someRectangle) in
  let v := sampleViewer 500 (Some someRectangle) in
  let places := [placeX; placeY] in
  cesiumViewer w = Some v
  /\ clampToHeightMostDetailed patchy (map placeCartesian places)
     = Fulfilled (map Some [clampedX] ++ [None])
  /\ length [clampedX] < length places
  /\ addPlaceLabels patchy places w
     = console_error "Error clamping positions to height:" "TypeError"
         (setViewer
            (Some (setEntities (placeEntities [placeX] [clampedX]) v)) w)
  /\ length (markers (addPlaceLabels patchy places w)) = 1.
Proof.
  intros w v places.
  split; [reflexivity|]. split; [reflexivity|].
  split; [simpl; lia|].
  apply (addPlaceLabels_stops_at_gap patchy places w v [clampedX] [None]);
    [reflexivity | reflexivity | simpl; lia
     | right; exists []; reflexivity].
Defined.

Lemma updatePlaces_success_at_street_level :
  let w := viewing 500 (Some someRectangle) in
  let v := sampleViewer 500 (Some someRectangle) in
  let data := {| features := [placeX; placeY] |} in
  let clamped := [clampedX; clampedY] in
  cesiumViewer w = Some v
  /\ isZoomAbove15 w = true
  /\ json {| json := Fulfilled data |} = Fulfilled data
  /\ clampToHeightMostDetailed online (map placeCartesian (features data))
     = Fulfilled (map Some clamped)
  /\ exists b,
       getCurrentBoundingBox w = Some b
       /\ updatePlaces online w
          = send (apiUrl b)
              (setViewer
                 (Some (setEntities
                          (placeEntities (features data) clamped) v))
                 w).
Proof.
  intros w v data clamped.
  split; [reflexivity|]. split; [reflexivity|]. split; [reflexivity|].
  split; [reflexivity|].
  apply (updatePlaces_success online w v someRectangle
           {| json := Fulfilled data |} data clamped);
    try reflexivity.
Defined.


Lemma first_refresh_after_tileset_load_at_mount :
  let loading := [Mount; Unmount; Elapse 2000] in
  let w' := run online (loading ++ [TilesetSettled; Elapse 300]) mounted in
  cesiumContainerRef mounted = true
  /\ cesiumViewer mounted = None
  /\ timerId mounted = None
  /\ 300 <= 300
  /\ invoked (run online loading mounted) = []
  /\ w' = setTimer (0 + 2000 + 300) None [0 + 2000 + 300]
            (updatePlaces online (initializeCesium online mounted))
  /\ invoked w' = [0 + 2000 + 300]
  /\ timerId w' = None.
Proof.
  intros loading w'.
  split; [reflexivity|]. split; [reflexivity|]. split; [reflexivity|].
  split; [lia|].
  exact (first_refresh_after_tileset_load online mounted true 2000 300
           eq_refl eq_refl eq_refl ltac:(lia)).
Defined.
